(** * Shallow embedding of the OTA engine of edgehog-zephyr-device
    (lib/edgehog_device/ota.c).

    The engine is modelled as a state monad over a [world] that holds the
    OTA thread data ([ota_thread_data_t]), the persisted settings record, a
    trace of the externally visible actions (published events, settings
    writes, bootloader and flash calls, sleeps) and the oracles that fix the
    results of the external collaborators (Zephyr settings, flash_img,
    MCUboot, the HTTP client). *)

From Stdlib Require Import ZArith NArith List String Ascii Bool Lia.
Import ListNotations.
Open Scope string_scope.
Open Scope list_scope.

(** ** Results, events and status codes *)

Inductive edgehog_result_t :=
| EDGEHOG_RESULT_OK
| EDGEHOG_RESULT_INTERNAL_ERROR
| EDGEHOG_RESULT_OUT_OF_MEMORY
| EDGEHOG_RESULT_THREAD_CREATE_ERROR
| EDGEHOG_RESULT_NETWORK_ERROR
| EDGEHOG_RESULT_HTTP_REQUEST_ERROR
| EDGEHOG_RESULT_SETTINGS_INIT_FAIL
| EDGEHOG_RESULT_SETTINGS_SAVE_FAIL
| EDGEHOG_RESULT_SETTINGS_LOAD_FAIL
| EDGEHOG_RESULT_SETTINGS_DELETE_FAIL
| EDGEHOG_RESULT_OTA_INVALID_REQUEST
| EDGEHOG_RESULT_OTA_ALREADY_IN_PROGRESS
| EDGEHOG_RESULT_OTA_INVALID_IMAGE
| EDGEHOG_RESULT_OTA_SYSTEM_ROLLBACK
| EDGEHOG_RESULT_OTA_CANCELED
| EDGEHOG_RESULT_OTA_INTERNAL_ERROR
| EDGEHOG_RESULT_OTA_SWAP_FAIL
| EDGEHOG_RESULT_OTA_ERASE_SECOND_SLOT_ERROR
| EDGEHOG_RESULT_OTA_INIT_FLASH_ERROR
| EDGEHOG_RESULT_OTA_WRITE_FLASH_ERROR.

Definition result_eq_dec (x y : edgehog_result_t) : {x = y} + {x <> y}.
Proof. decide equality. Defined.

Definition result_eqb (x y : edgehog_result_t) : bool :=
  if result_eq_dec x y then true else false.

Inductive ota_event_t :=
| OTA_EVENT_ACKNOWLEDGED
| OTA_EVENT_DOWNLOADING
| OTA_EVENT_DEPLOYING
| OTA_EVENT_DEPLOYED
| OTA_EVENT_REBOOTING
| OTA_EVENT_SUCCESS
| OTA_EVENT_ERROR
| OTA_EVENT_FAILURE.

(** The [statusCode] string chosen by [pub_ota_event]. *)
Definition status_code (error : edgehog_result_t) : string :=
  match error with
  | EDGEHOG_RESULT_OK => ""
  | EDGEHOG_RESULT_OTA_INVALID_REQUEST => "InvalidRequest"
  | EDGEHOG_RESULT_OTA_ALREADY_IN_PROGRESS => "UpdateAlreadyInProgress"
  | EDGEHOG_RESULT_NETWORK_ERROR => "ErrorNetwork"
  | EDGEHOG_RESULT_SETTINGS_INIT_FAIL
  | EDGEHOG_RESULT_SETTINGS_SAVE_FAIL
  | EDGEHOG_RESULT_SETTINGS_LOAD_FAIL
  | EDGEHOG_RESULT_SETTINGS_DELETE_FAIL => "IOError"
  | EDGEHOG_RESULT_OTA_INVALID_IMAGE => "InvalidBaseImage"
  | EDGEHOG_RESULT_OTA_SYSTEM_ROLLBACK => "SystemRollback"
  | EDGEHOG_RESULT_OTA_CANCELED => "Canceled"
  | _ => "InternalError"
  end.

(** The aggregated object streamed on [OTAEvent/event] (the timestamp is
    left out). *)
Record ota_event_msg := mk_event {
  requestUUID : string;
  status : ota_event_t;
  statusProgress : Z;
  statusCode : string;
  message : string
}.

(** Persisted OTA states ([ota_state_t]). *)
Definition OTA_STATE_IDLE : Z := 1.
Definition OTA_STATE_IN_PROGRESS : Z := 2.
Definition OTA_STATE_REBOOT : Z := 3.

Definition ASTARTE_UUID_STR_LEN : nat := 36.
Definition MAX_OTA_RETRY : nat := 5.
Definition OTA_PROGRESS_PERC : N := 100.
Definition OTA_PROGRESS_PERC_ROUNDING_STEP : Z := 10.
Definition OTA_ATTEMPS_DELAY_MS : Z := 2000.

Definition OTA_KEY : string := "ota".
Definition OTA_STATE_KEY : string := "state".
Definition OTA_REQUEST_ID_KEY : string := "req_id".

(** ** Externally visible actions *)

Inductive setting_val := SV_byte (b : Z) | SV_str (s : string).

Inductive act :=
| A_Pub (e : ota_event_msg)
| A_SettingsInit
| A_SettingsLoad
| A_Save (key : string) (v : setting_val)
| A_Delete (key : string)
| A_ThreadCreate
| A_EraseSecondary
| A_FlashInit
| A_FlashWrite (size : N)
| A_Download (url : string)
| A_Abort
| A_AttemptDone (attempt : nat) (r : edgehog_result_t)
| A_Sleep (ms : Z)
| A_ReadHeader
| A_RequestUpgrade
| A_Reboot
| A_ConfirmImage
| A_CancelCmd (uuid : string) (r : edgehog_result_t).

(** ** The HTTP download script of one transfer and the oracles *)

(** One chunk delivered to the sink: its size, the total size from the
    response ([download_size]), the [last_chunk] flag, and whether
    [flash_img_buffered_write] accepts it. *)
Record dl_chunk := mk_chunk {
  chunk_size : N;
  chunk_total : N;
  last_chunk : bool;
  chunk_write_ok : bool
}.

(** One transfer: the chunks the server sends, the result of the transfer
    when it runs to its end, and its result when the sink aborts it. *)
Record dl_script := mk_script {
  ds_chunks : list dl_chunk;
  ds_result : edgehog_result_t;
  ds_abort_result : edgehog_result_t
}.

Inductive swap_type := BOOT_SWAP_TYPE_NONE | BOOT_SWAP_TYPE_TEST
  | BOOT_SWAP_TYPE_PERM | BOOT_SWAP_TYPE_REVERT | BOOT_SWAP_TYPE_FAIL.

(** Results of the external calls. *)
Record env := mk_env {
  e_alloc_uuid_ok : bool;
  e_alloc_url_ok : bool;
  e_thread_create_ok : bool;
  e_settings_init_ok : bool;
  e_settings_load_ok : bool;
  e_settings_save_ok : bool;
  e_settings_delete_ok : bool;
  e_erase_ok : bool;
  e_flash_init_ok : bool;
  e_read_header_ok : bool;
  e_request_upgrade_ok : bool;
  e_swap_type : swap_type;
  e_img_confirmed : bool;
  e_confirm_ok : bool
}.

(** ** The world *)

(** [ota_thread_data_t]: the run bit of [ota_run_state], the request, the
    [flash_img_context] (its [bytes_written]) and the progress counters. *)
Record ota_thread_data := mk_td {
  ota_run_state : bool;
  req_uuid : string;
  req_download_url : string;
  flash_bytes_written : N;
  image_size : N;
  download_size : N;
  last_perc_sent : Z;
  sock_aborted : bool
}.

Definition td_zero : ota_thread_data := mk_td false "" "" 0 0 0 0 false.

(** The persisted [ota/] namespace. *)
Record store := mk_store { st_state : option Z; st_req_id : option string }.

Record world := mk_world {
  w_td : ota_thread_data;
  w_store : store;
  w_trace : list act;
  w_scripts : list dl_script;
  w_sched : list (option string);
  w_env : env
}.

(** ** A state monad over the world *)

Definition M (A : Type) := world -> A * world.

Definition ret {A} (a : A) : M A := fun w => (a, w).
Definition bind {A B} (m : M A) (f : A -> M B) : M B :=
  fun w => let (a, w') := m w in f a w'.

Notation "x <- m ;; k" := (bind m (fun x => k))
  (at level 61, m at next level, right associativity).
Notation "m ;;; k" := (bind m (fun _ => k))
  (at level 61, right associativity).

Definition gets {A} (f : world -> A) : M A := fun w => (f w, w).
Definition modify (f : world -> world) : M unit := fun w => (tt, f w).

Definition set_td (f : ota_thread_data -> ota_thread_data) (w : world) : world :=
  mk_world (f (w_td w)) (w_store w) (w_trace w) (w_scripts w) (w_sched w) (w_env w).
Definition set_store (s : store) (w : world) : world :=
  mk_world (w_td w) s (w_trace w) (w_scripts w) (w_sched w) (w_env w).
Definition add_act (a : act) (w : world) : world :=
  mk_world (w_td w) (w_store w) (w_trace w ++ [a]) (w_scripts w) (w_sched w) (w_env w).

Definition log (a : act) : M unit := modify (add_act a).
Definition env_of {A} (f : env -> A) : M A := gets (fun w => f (w_env w)).

Definition set_run (b : bool) (t : ota_thread_data) : ota_thread_data :=
  mk_td b (req_uuid t) (req_download_url t) (flash_bytes_written t)
    (image_size t) (download_size t) (last_perc_sent t) (sock_aborted t).
Definition set_uuid (s : string) (t : ota_thread_data) : ota_thread_data :=
  mk_td (ota_run_state t) s (req_download_url t) (flash_bytes_written t)
    (image_size t) (download_size t) (last_perc_sent t) (sock_aborted t).
Definition set_url (s : string) (t : ota_thread_data) : ota_thread_data :=
  mk_td (ota_run_state t) (req_uuid t) s (flash_bytes_written t)
    (image_size t) (download_size t) (last_perc_sent t) (sock_aborted t).
Definition set_flash (n : N) (t : ota_thread_data) : ota_thread_data :=
  mk_td (ota_run_state t) (req_uuid t) (req_download_url t) n
    (image_size t) (download_size t) (last_perc_sent t) (sock_aborted t).
Definition set_image_size (n : N) (t : ota_thread_data) : ota_thread_data :=
  mk_td (ota_run_state t) (req_uuid t) (req_download_url t) (flash_bytes_written t)
    n (download_size t) (last_perc_sent t) (sock_aborted t).
Definition set_download_size (n : N) (t : ota_thread_data) : ota_thread_data :=
  mk_td (ota_run_state t) (req_uuid t) (req_download_url t) (flash_bytes_written t)
    (image_size t) n (last_perc_sent t) (sock_aborted t).
Definition set_last_perc (p : Z) (t : ota_thread_data) : ota_thread_data :=
  mk_td (ota_run_state t) (req_uuid t) (req_download_url t) (flash_bytes_written t)
    (image_size t) (download_size t) p (sock_aborted t).
Definition set_aborted (b : bool) (t : ota_thread_data) : ota_thread_data :=
  mk_td (ota_run_state t) (req_uuid t) (req_download_url t) (flash_bytes_written t)
    (image_size t) (download_size t) (last_perc_sent t) b.

Definition run_bit : M bool := gets (fun w => ota_run_state (w_td w)).

(** [pub_ota_event]: one aggregated object on the event channel. *)
Definition pub_ota_event (request_uuid : string) (event : ota_event_t)
    (status_progress : Z) (error : edgehog_result_t) (msg : string) : M unit :=
  log (A_Pub (mk_event request_uuid event status_progress (status_code error) msg)).

(** ** Settings store (lib/edgehog_device/settings.c) *)

(** Modelled from the spec: the settings module (settings.c is not in the
    sources). [save] is atomic per key, [delete] of a missing key succeeds,
    and each operation fails with its own [SETTINGS_*_FAIL] code; whether it
    fails is fixed by the oracle. Every call is recorded in the trace. *)
Definition store_put (key : string) (v : setting_val) (s : store) : store :=
  match v with
  | SV_byte b => if String.eqb key OTA_STATE_KEY
                 then mk_store (Some b) (st_req_id s) else s
  | SV_str str => if String.eqb key OTA_REQUEST_ID_KEY
                  then mk_store (st_state s) (Some str) else s
  end.

Definition store_del (key : string) (s : store) : store :=
  if String.eqb key OTA_STATE_KEY then mk_store None (st_req_id s)
  else if String.eqb key OTA_REQUEST_ID_KEY then mk_store (st_state s) None
  else s.

Definition edgehog_settings_init : M edgehog_result_t :=
  log A_SettingsInit ;;;
  ok <- env_of e_settings_init_ok ;;
  ret (if ok then EDGEHOG_RESULT_OK else EDGEHOG_RESULT_SETTINGS_INIT_FAIL).

Definition edgehog_settings_save (ns key : string) (v : setting_val) : M edgehog_result_t :=
  log (A_Save key v) ;;;
  ok <- env_of e_settings_save_ok ;;
  if ok then modify (fun w => set_store (store_put key v (w_store w)) w) ;;;
             ret EDGEHOG_RESULT_OK
  else ret EDGEHOG_RESULT_SETTINGS_SAVE_FAIL.

Definition edgehog_settings_delete (ns key : string) : M edgehog_result_t :=
  log (A_Delete key) ;;;
  ok <- env_of e_settings_delete_ok ;;
  if ok then modify (fun w => set_store (store_del key (w_store w)) w) ;;;
             ret EDGEHOG_RESULT_OK
  else ret EDGEHOG_RESULT_SETTINGS_DELETE_FAIL.

(** [ota_settings_t], as filled by [ota_settings_loader] from a zeroed
    value: a missing key leaves its field zero (empty uuid, state 0). *)
Record ota_settings_t := mk_ota_settings { uuid : string; ota_state : Z }.

Definition ota_settings_of (s : store) : ota_settings_t :=
  mk_ota_settings
    (match st_req_id s with Some u => u | None => "" end)
    (match st_state s with Some b => b | None => 0%Z end).

(** [edgehog_settings_load("ota", ota_settings_loader, &ota_settings)]. *)
Definition edgehog_settings_load_ota : M (edgehog_result_t * ota_settings_t) :=
  log A_SettingsLoad ;;;
  ok <- env_of e_settings_load_ok ;;
  s <- gets w_store ;;
  if ok then ret (EDGEHOG_RESULT_OK, ota_settings_of s)
  else ret (EDGEHOG_RESULT_SETTINGS_LOAD_FAIL, mk_ota_settings "" 0).

(** ** [edgehog_ota_event_update] *)

(** The two [calloc]s and [k_thread_create] take their results from the
    oracle. On success the worker [ota_thread_entry_point] is started; it is
    modelled below as its own action. *)
Definition edgehog_ota_event_update (uuid url : string) : M edgehog_result_t :=
  running <- run_bit ;;
  if running then
    pub_ota_event uuid OTA_EVENT_FAILURE 0 EDGEHOG_RESULT_OTA_ALREADY_IN_PROGRESS "" ;;;
    ret EDGEHOG_RESULT_OTA_ALREADY_IN_PROGRESS
  else
  (* memset(ota_thread_data, 0, sizeof(ota_thread_data_t)) *)
  modify (set_td (fun _ => td_zero)) ;;;
  a_uuid <- env_of e_alloc_uuid_ok ;;
  if negb a_uuid then ret EDGEHOG_RESULT_OUT_OF_MEMORY else
  modify (set_td (set_uuid uuid)) ;;;
  a_url <- env_of e_alloc_url_ok ;;
  if negb a_url then ret EDGEHOG_RESULT_OUT_OF_MEMORY else
  modify (set_td (set_url url)) ;;;
  (* atomic_test_and_set_bit *)
  was_set <- run_bit ;;
  modify (set_td (set_run true)) ;;;
  if was_set then ret EDGEHOG_RESULT_OUT_OF_MEMORY else
  log A_ThreadCreate ;;;
  created <- env_of e_thread_create_ok ;;
  if negb created then
    pub_ota_event uuid OTA_EVENT_FAILURE 0 EDGEHOG_RESULT_OTA_INTERNAL_ERROR "" ;;;
    ret EDGEHOG_RESULT_THREAD_CREATE_ERROR
  else ret EDGEHOG_RESULT_OK.

(** ** [edgehog_ota_event_cancel] *)

Definition edgehog_ota_event_cancel (request_uuid : string) : M edgehog_result_t :=
  running <- run_bit ;;
  if negb running then
    pub_ota_event request_uuid OTA_EVENT_FAILURE 0 EDGEHOG_RESULT_OTA_INVALID_REQUEST
      "Unable to cancel OTA update request, no OTA update running." ;;;
    ret EDGEHOG_RESULT_OTA_INVALID_REQUEST
  else
  res <- edgehog_settings_init ;;
  if negb (result_eqb res EDGEHOG_RESULT_OK) then
    pub_ota_event request_uuid OTA_EVENT_FAILURE 0 EDGEHOG_RESULT_OTA_INTERNAL_ERROR
      "Unable to cancel OTA update request, Edgeghog Settings init error." ;;;
    ret EDGEHOG_RESULT_OTA_INTERNAL_ERROR
  else
  loaded <- edgehog_settings_load_ota ;;
  let (res, ota_settings) := loaded in
  if negb (result_eqb res EDGEHOG_RESULT_OK) then
    pub_ota_event request_uuid OTA_EVENT_FAILURE 0 EDGEHOG_RESULT_OTA_INTERNAL_ERROR
      "Unable to cancel OTA update request, Edgeghog Settings load error." ;;;
    ret EDGEHOG_RESULT_OTA_INTERNAL_ERROR
  else
  if negb (Nat.eqb (String.length (uuid ota_settings)) ASTARTE_UUID_STR_LEN) then
    pub_ota_event request_uuid OTA_EVENT_FAILURE 0 EDGEHOG_RESULT_OTA_INTERNAL_ERROR
      "Unable to cancel OTA update request, Edgehog Settings error." ;;;
    ret EDGEHOG_RESULT_OTA_INTERNAL_ERROR
  else
  (* atomic_test_and_clear_bit *)
  modify (set_td (set_run false)) ;;;
  ret EDGEHOG_RESULT_OK.

(** ** Interleaving with the command callbacks *)

(** At each suspension point of the worker the telemetry task may deliver
    one command: [Some u] in the schedule is a Cancel command for uuid [u],
    handled atomically at that point; its return value is recorded. *)
Definition yield : M unit :=
  fun w =>
    match w_sched w with
    | [] => (tt, w)
    | c :: rest =>
        let w1 := mk_world (w_td w) (w_store w) (w_trace w) (w_scripts w) rest (w_env w) in
        match c with
        | None => (tt, w1)
        | Some u => (r <- edgehog_ota_event_cancel u ;; log (A_CancelCmd u r)) w1
        end
    end.

(** ** The HTTP sink [http_download_payload_cbk] *)

(** [edgehog_http_download_abort(sock_id)]: the socket is marked aborted. *)
Definition edgehog_http_download_abort : M unit :=
  log A_Abort ;;;
  modify (set_td (set_aborted true)).

(** The [user_data] argument is always the device handle, so its NULL check
    is left out. [flash_img_buffered_write] appends the chunk to the flash
    context, and [bytes_written] is taken to grow by the chunk size: this is
    what Zephyr's flash_img reports when every chunk fills its write buffer
    (it counts flushed bytes only). Sizes are kept as [N], without the
    wrap-around of a 32-bit [size_t] in [OTA_PROGRESS_PERC * download_size],
    which only matters for images above 42 MB; the percent is cast to
    [int]. *)
Definition http_download_payload_cbk (download_chunk : option dl_chunk)
    : M edgehog_result_t :=
  match download_chunk with
  | None => ret EDGEHOG_RESULT_HTTP_REQUEST_ERROR
  | Some c =>
    running <- run_bit ;;
    if negb running then
      edgehog_http_download_abort ;;;
      ret EDGEHOG_RESULT_OK
    else
    if negb (chunk_write_ok c) then
      edgehog_http_download_abort ;;;
      ret EDGEHOG_RESULT_OTA_WRITE_FLASH_ERROR
    else
    log (A_FlashWrite (chunk_size c)) ;;;
    modify (set_td (fun t => set_flash (flash_bytes_written t + chunk_size c) t)) ;;;
    modify (set_td (set_image_size (chunk_total c))) ;;;
    written <- gets (fun w => flash_bytes_written (w_td w)) ;;
    modify (set_td (set_download_size written)) ;;;
    let read_perc := Z.of_N (N.div (OTA_PROGRESS_PERC * written) (chunk_total c)) in
    let read_perc_rounded :=
      (read_perc - Z.rem read_perc OTA_PROGRESS_PERC_ROUNDING_STEP)%Z in
    last <- gets (fun w => last_perc_sent (w_td w)) ;;
    req <- gets (fun w => req_uuid (w_td w)) ;;
    if negb (Z.eqb read_perc_rounded last) then
      pub_ota_event req OTA_EVENT_DOWNLOADING read_perc_rounded EDGEHOG_RESULT_OK "" ;;;
      modify (set_td (set_last_perc read_perc_rounded)) ;;;
      ret EDGEHOG_RESULT_OK
    else ret EDGEHOG_RESULT_OK
  end.

(** ** The HTTP client [edgehog_http_download] (lib/edgehog_device/http.c) *)

(** A transfer that fails before any byte, e.g. a refused connection. *)
Definition no_transfer : dl_script :=
  mk_script [] EDGEHOG_RESULT_NETWORK_ERROR EDGEHOG_RESULT_NETWORK_ERROR.

Definition next_script : M dl_script :=
  fun w =>
    match w_scripts w with
    | [] => (no_transfer, w)
    | s :: rest => (s, mk_world (w_td w) (w_store w) (w_trace w) rest (w_sched w) (w_env w))
    end.

(** Modelled from the spec: the chunk loop of the HTTP client (http.c is not
    in the sources). Each chunk is awaited on the socket (a suspension
    point) and handed to the sink; a sink error ends the transfer with that
    error, an abort from the sink ends it with the script's abort result,
    and a transfer that delivers all its chunks ends with the script's
    result. *)
Fixpoint http_deliver (chunks : list dl_chunk) (sc : dl_script) : M edgehog_result_t :=
  match chunks with
  | [] => ret (ds_result sc)
  | c :: cs =>
    yield ;;;
    r <- http_download_payload_cbk (Some c) ;;
    if negb (result_eqb r EDGEHOG_RESULT_OK) then ret r else
    aborted <- gets (fun w => sock_aborted (w_td w)) ;;
    if aborted then ret (ds_abort_result sc) else http_deliver cs sc
  end.

(** Modelled from the spec: [edgehog_http_download(url, headers, timeout,
    sink)], one GET whose body is fed chunk by chunk to the sink. *)
Definition edgehog_http_download (url : string) : M edgehog_result_t :=
  log (A_Download url) ;;;
  sc <- next_script ;;
  modify (set_td (set_aborted false)) ;;;
  http_deliver (ds_chunks sc) sc.

(** ** [perform_ota_attempt] *)

Definition perform_ota_attempt : M edgehog_result_t :=
  url <- gets (fun w => req_download_url (w_td w)) ;;
  edgehog_result <- edgehog_http_download url ;;
  running <- run_bit ;;
  if negb running then ret EDGEHOG_RESULT_OTA_CANCELED else
  if negb (result_eqb edgehog_result EDGEHOG_RESULT_OK) then ret edgehog_result else
  written <- gets (fun w => flash_bytes_written (w_td w)) ;;
  modify (set_td (set_download_size written)) ;;;
  isz <- gets (fun w => image_size (w_td w)) ;;
  if N.eqb written 0 || negb (N.eqb written isz)
  then ret EDGEHOG_RESULT_NETWORK_ERROR
  else ret EDGEHOG_RESULT_OK.

(** ** [perform_ota] *)

Definition ok_or_canceled (r : edgehog_result_t) : bool :=
  result_eqb r EDGEHOG_RESULT_OK || result_eqb r EDGEHOG_RESULT_OTA_CANCELED.

(** The [for (update_attempts = u; update_attempts < MAX_OTA_RETRY; ...)]
    loop, with [n] iterations left; [res] is [edgehog_result] on entry.
    [A_AttemptDone] records the value returned by [perform_ota_attempt]. *)
Fixpoint ota_attempt_loop (n u : nat) (res : edgehog_result_t) : M edgehog_result_t :=
  match n with
  | O => ret res
  | S n' =>
    req <- gets (fun w => req_uuid (w_td w)) ;;
    pub_ota_event req OTA_EVENT_DOWNLOADING 0 EDGEHOG_RESULT_OK "" ;;;
    r <- perform_ota_attempt ;;
    log (A_AttemptDone u r) ;;;
    if ok_or_canceled r then ret r else
    (* k_msleep(update_attempts * OTA_ATTEMPS_DELAY_MS) *)
    log (A_Sleep (Z.of_nat u * OTA_ATTEMPS_DELAY_MS)) ;;;
    yield ;;;
    pub_ota_event req OTA_EVENT_ERROR 0 r "" ;;;
    ota_attempt_loop n' (S u) r
  end.

(** [boot_erase_img_bank] is a suspension point (the erase takes time);
    [flash_img_init] starts the flash context with [bytes_written = 0]. The
    saved [req_id] is the 37-byte buffer of the uuid, i.e. the uuid itself
    for a 36-character uuid. *)
Definition perform_ota : M edgehog_result_t :=
  log A_EraseSecondary ;;;
  yield ;;;
  erased <- env_of e_erase_ok ;;
  if negb erased then ret EDGEHOG_RESULT_OTA_ERASE_SECOND_SLOT_ERROR else
  log A_FlashInit ;;;
  inited <- env_of e_flash_init_ok ;;
  if negb inited then ret EDGEHOG_RESULT_OTA_INIT_FLASH_ERROR else
  modify (set_td (set_flash 0)) ;;;
  req <- gets (fun w => req_uuid (w_td w)) ;;
  edgehog_result <- edgehog_settings_save OTA_KEY OTA_REQUEST_ID_KEY (SV_str req) ;;
  if negb (result_eqb edgehog_result EDGEHOG_RESULT_OK) then ret edgehog_result else
  ota_attempt_loop MAX_OTA_RETRY 0 edgehog_result.

(** ** The worker [ota_thread_entry_point] *)

(** The [selfdestruct] label. *)
Definition ota_selfdestruct : M unit :=
  modify (set_td (set_run false)) ;;;
  edgehog_settings_delete OTA_KEY OTA_REQUEST_ID_KEY ;;;
  edgehog_settings_save OTA_KEY OTA_STATE_KEY (SV_byte OTA_STATE_IDLE) ;;;
  ret tt.

(** The worker after [perform_ota] returned [edgehog_result].
    [sys_reboot] does not return: nothing runs after [A_Reboot]. *)
Definition after_perform_ota (edgehog_result : edgehog_result_t) : M unit :=
  req <- gets (fun w => req_uuid (w_td w)) ;;
  if result_eqb edgehog_result EDGEHOG_RESULT_OK then
    pub_ota_event req OTA_EVENT_DEPLOYING 0 EDGEHOG_RESULT_OK "" ;;;
    edgehog_settings_save OTA_KEY OTA_STATE_KEY (SV_byte OTA_STATE_REBOOT) ;;;
    log A_ReadHeader ;;;
    hdr_ok <- env_of e_read_header_ok ;;
    if negb hdr_ok then
      pub_ota_event req OTA_EVENT_FAILURE 0 EDGEHOG_RESULT_OTA_INTERNAL_ERROR "" ;;;
      ota_selfdestruct
    else
    log A_RequestUpgrade ;;;
    upg_ok <- env_of e_request_upgrade_ok ;;
    if negb upg_ok then
      pub_ota_event req OTA_EVENT_FAILURE 0 EDGEHOG_RESULT_OTA_INTERNAL_ERROR "" ;;;
      ota_selfdestruct
    else
    pub_ota_event req OTA_EVENT_DEPLOYED 0 EDGEHOG_RESULT_OK "" ;;;
    pub_ota_event req OTA_EVENT_REBOOTING 0 EDGEHOG_RESULT_OK "" ;;;
    log (A_Sleep 5000) ;;;
    yield ;;;
    log A_Reboot
  else
    pub_ota_event req OTA_EVENT_FAILURE 0 edgehog_result "" ;;;
    edgehog_settings_save OTA_KEY OTA_STATE_KEY (SV_byte OTA_STATE_IDLE) ;;;
    ota_selfdestruct.

Definition ota_thread_entry_point : M unit :=
  req <- gets (fun w => req_uuid (w_td w)) ;;
  pub_ota_event req OTA_EVENT_ACKNOWLEDGED 0 EDGEHOG_RESULT_OK "" ;;;
  edgehog_result <- edgehog_settings_init ;;
  if negb (result_eqb edgehog_result EDGEHOG_RESULT_OK) then
    pub_ota_event req OTA_EVENT_FAILURE 0 EDGEHOG_RESULT_SETTINGS_INIT_FAIL "" ;;;
    ota_selfdestruct
  else
  edgehog_settings_save OTA_KEY OTA_STATE_KEY (SV_byte OTA_STATE_IN_PROGRESS) ;;;
  r <- perform_ota ;;
  after_perform_ota r.

(** ** Boot-time reconciliation [edgehog_ota_init] *)

Definition swap_is_none (s : swap_type) : bool :=
  match s with BOOT_SWAP_TYPE_NONE => true | _ => false end.

(** The device handle is the one the world belongs to, so its NULL check is
    left out. *)
Definition edgehog_ota_init : M unit :=
  modify (set_td (fun _ => td_zero)) ;;;
  loaded <- edgehog_settings_load_ota ;;
  let (res, ota_settings) := loaded in
  if negb (result_eqb res EDGEHOG_RESULT_OK) then ret tt else
  (if negb (Nat.eqb (String.length (uuid ota_settings)) ASTARTE_UUID_STR_LEN) then ret tt
   else if negb (Z.eqb (ota_state ota_settings) OTA_STATE_REBOOT) then
     pub_ota_event (uuid ota_settings) OTA_EVENT_FAILURE 0 EDGEHOG_RESULT_OTA_INTERNAL_ERROR ""
   else
     swap <- env_of e_swap_type ;;
     if negb (swap_is_none swap) then
       pub_ota_event (uuid ota_settings) OTA_EVENT_FAILURE 0 EDGEHOG_RESULT_OTA_SWAP_FAIL ""
     else
     confirmed <- env_of e_img_confirmed ;;
     if confirmed then
       pub_ota_event (uuid ota_settings) OTA_EVENT_FAILURE 0 EDGEHOG_RESULT_OTA_SWAP_FAIL ""
     else
     log A_ConfirmImage ;;;
     conf_ok <- env_of e_confirm_ok ;;
     if negb conf_ok then
       pub_ota_event (uuid ota_settings) OTA_EVENT_FAILURE 0 EDGEHOG_RESULT_OTA_INTERNAL_ERROR ""
     else
       pub_ota_event (uuid ota_settings) OTA_EVENT_SUCCESS 0 EDGEHOG_RESULT_OK "") ;;;
  (* end: *)
  edgehog_settings_delete OTA_KEY OTA_REQUEST_ID_KEY ;;;
  edgehog_settings_save OTA_KEY OTA_STATE_KEY (SV_byte OTA_STATE_IDLE) ;;;
  ret tt.

(** ** Observations on traces *)

Definition is_flash_write (a : act) : bool :=
  match a with A_FlashWrite _ => true | _ => false end.
Definition is_erase (a : act) : bool :=
  match a with A_EraseSecondary => true | _ => false end.
Definition is_flash_init (a : act) : bool :=
  match a with A_FlashInit => true | _ => false end.
Definition is_pub_of (k : ota_event_t) (a : act) : bool :=
  match a, k with
  | A_Pub e, OTA_EVENT_ACKNOWLEDGED => match status e with OTA_EVENT_ACKNOWLEDGED => true | _ => false end
  | A_Pub e, OTA_EVENT_DOWNLOADING => match status e with OTA_EVENT_DOWNLOADING => true | _ => false end
  | A_Pub e, OTA_EVENT_DEPLOYING => match status e with OTA_EVENT_DEPLOYING => true | _ => false end
  | A_Pub e, OTA_EVENT_DEPLOYED => match status e with OTA_EVENT_DEPLOYED => true | _ => false end
  | A_Pub e, OTA_EVENT_REBOOTING => match status e with OTA_EVENT_REBOOTING => true | _ => false end
  | A_Pub e, OTA_EVENT_SUCCESS => match status e with OTA_EVENT_SUCCESS => true | _ => false end
  | A_Pub e, OTA_EVENT_ERROR => match status e with OTA_EVENT_ERROR => true | _ => false end
  | A_Pub e, OTA_EVENT_FAILURE => match status e with OTA_EVENT_FAILURE => true | _ => false end
  | _, _ => false
  end.

(** A [Failure] event whose statusCode is [Canceled]. *)
Definition is_canceled_failure (a : act) : bool :=
  is_pub_of OTA_EVENT_FAILURE a &&
  match a with A_Pub e => String.eqb (statusCode e) "Canceled" | _ => false end.

(** The statusProgress values of the [Downloading] events of a trace. *)
Definition downloading_progress (t : list act) : list Z :=
  flat_map (fun a => match a with
                     | A_Pub e => match status e with
                                  | OTA_EVENT_DOWNLOADING => [statusProgress e]
                                  | _ => []
                                  end
                     | _ => []
                     end) t.

(** ** Concrete scenarios *)

Definition env_all_ok : env :=
  mk_env true true true true true true true true true true true
    BOOT_SWAP_TYPE_NONE false true.

Definition uuid_a : string := "11111111-1111-1111-1111-111111111111".
Definition uuid_b : string := "22222222-2222-2222-2222-222222222222".
Definition url_a : string := "https://x/a.bin".

(** A 1024-byte image in two 512-byte chunks. *)
Definition transfer_full : dl_script :=
  mk_script [mk_chunk 512 1024 false true; mk_chunk 512 1024 true true]
    EDGEHOG_RESULT_OK EDGEHOG_RESULT_OK.
(** The same image, with the connection reset after the first chunk. *)
Definition transfer_reset : dl_script :=
  mk_script [mk_chunk 512 1024 false true]
    EDGEHOG_RESULT_NETWORK_ERROR EDGEHOG_RESULT_NETWORK_ERROR.

(** An idle device: run bit clear, persisted state IDLE. *)
Definition world_idle (e : env) : world :=
  mk_world td_zero (mk_store (Some OTA_STATE_IDLE) None) [] [] [] e.

(** The device right after a successful [edgehog_ota_event_update(uuid_a,
    url_a)]: the worker is about to run. *)
Definition world_started (scripts : list dl_script) (sched : list (option string)) : world :=
  mk_world (mk_td true uuid_a url_a 0 0 0 0 false)
    (mk_store (Some OTA_STATE_IDLE) None) [A_ThreadCreate] scripts sched env_all_ok.

(** The device at boot after the worker persisted REBOOT for [uuid_a]. *)
Definition world_boot (e : env) : world :=
  mk_world td_zero (mk_store (Some OTA_STATE_REBOOT) (Some uuid_a)) [] [] [] e.

(** ** Relations between the world before and after an action *)

(** [steps R m]: every run of [m] relates its initial and final worlds by
    [R]. *)
Definition steps (R : world -> world -> Prop) {A} (m : M A) : Prop :=
  forall w, R w (snd (m w)).

(** The action only appends trace entries accepted by [P]. *)
Definition only (P : act -> bool) (w w' : world) : Prop :=
  exists added, w_trace w' = w_trace w ++ added /\ forallb P added = true.

(** A clear run bit stays clear. *)
Definition keeps_clear (w w' : world) : Prop :=
  ota_run_state (w_td w) = false -> ota_run_state (w_td w') = false.

(** The entries a download attempt can add to the trace: the HTTP request,
    flash writes, aborts, [Downloading] events, and the Cancel commands
    handled meanwhile (their settings accesses, [Failure] events and
    return values). *)
Definition attempt_act (a : act) : bool :=
  match a with
  | A_Download _ | A_Abort | A_FlashWrite _ | A_SettingsInit | A_SettingsLoad
  | A_CancelCmd _ _ => true
  | A_Pub e => match status e with
               | OTA_EVENT_DOWNLOADING | OTA_EVENT_FAILURE => true
               | _ => false
               end
  | _ => false
  end.

(** ** The retry policy as the spec states it *)

Inductive retry_obs :=
| V_Attempt (attempt : nat) (r : edgehog_result_t)
| V_Sleep (ms : Z)
| V_Error (code : string).

(** What the retry policy observes of a trace: attempt results, back-off
    sleeps and [Error] events. *)
Definition retry_view (a : act) : list retry_obs :=
  match a with
  | A_AttemptDone u r => [V_Attempt u r]
  | A_Sleep ms => [V_Sleep ms]
  | A_Pub e => match status e with
               | OTA_EVENT_ERROR => [V_Error (statusCode e)]
               | _ => []
               end
  | _ => []
  end.

Definition retry_trace (t : list act) : list retry_obs := flat_map retry_view t.

(** The policy, written from the spec: at most [MAX_OTA_RETRY] attempts; an
    attempt returning OK or OTA_CANCELED ends the loop with its result;
    any other result is followed by a sleep of [attempt_index * 2000] ms and
    an [Error] event with its status code; after the last attempt the loop
    returns the last error. [last] is the result so far. *)
Inductive retry_policy : nat -> edgehog_result_t -> list retry_obs -> edgehog_result_t -> Prop :=
| rp_stop u last r :
    u < MAX_OTA_RETRY -> ok_or_canceled r = true ->
    retry_policy u last [V_Attempt u r] r
| rp_retry u last r rest final :
    u < MAX_OTA_RETRY -> ok_or_canceled r = false ->
    retry_policy (S u) r rest final ->
    retry_policy u last
      (V_Attempt u r :: V_Sleep (Z.of_nat u * 2000) :: V_Error (status_code r) :: rest) final
| rp_exhausted last :
    retry_policy MAX_OTA_RETRY last [] last.

Definition attempts_of (v : list retry_obs) : nat :=
  List.length (filter (fun o => match o with V_Attempt _ _ => true | _ => false end) v).

(** Entries other than the erase of the secondary bank and the start of the
    flash context. *)
Definition not_prep (a : act) : bool := negb (is_erase a) && negb (is_flash_init a).

(** Entries other than a flash write or a [Downloading] event. *)
Definition no_write_act (a : act) : bool :=
  negb (is_flash_write a) && negb (is_pub_of OTA_EVENT_DOWNLOADING a).

(** From a world whose run bit is clear: the run bit stays clear, the
    progress fields of the thread data are unchanged, and no flash write and
    no [Downloading] event is added to the trace. *)
Definition cleared_frozen (w w' : world) : Prop :=
  ota_run_state (w_td w) = false ->
  ota_run_state (w_td w') = false /\
  flash_bytes_written (w_td w') = flash_bytes_written (w_td w) /\
  image_size (w_td w') = image_size (w_td w) /\
  download_size (w_td w') = download_size (w_td w) /\
  last_perc_sent (w_td w') = last_perc_sent (w_td w) /\
  only no_write_act w w'.

(** Entries other than a [Failure / Canceled] event. *)
Definition not_canceled_failure (a : act) : bool := negb (is_canceled_failure a).

(** An update of [uuid_a] in flight: run bit set, [req_id] and state
    IN_PROGRESS persisted. *)
Definition world_inflight : world :=
  mk_world (mk_td true uuid_a url_a 0 0 0 0 false)
    (mk_store (Some OTA_STATE_IN_PROGRESS) (Some uuid_a)) [] [] [] env_all_ok.

(** ** The command entry point [edgehog_ota_event] *)

(** An entry of the received aggregate: its path and its string value (the
    three fields the handler reads are strings of the request interface). *)
Record object_entry := mk_entry { entry_path : string; entry_string : string }.

(** One iteration of the scan of [object_event->entries]: the accumulator is
    ([req_uuid], [ota_url], [ota_operation]), [None] for NULL. *)
Definition scan_entry (acc : option string * option string * option string)
    (e : object_entry) : option string * option string * option string :=
  let '(req_uuid, ota_url, ota_operation) := acc in
  if String.eqb (entry_path e) "uuid" then (Some (entry_string e), ota_url, ota_operation)
  else if String.eqb (entry_path e) "url" then (req_uuid, Some (entry_string e), ota_operation)
  else if String.eqb (entry_path e) "operation" then (req_uuid, ota_url, Some (entry_string e))
  else (req_uuid, ota_url, ota_operation).

Definition scan_entries (es : list object_entry) :=
  fold_left scan_entry es (None, None, None).

(** [object_event] is [None] for a NULL pointer. *)
Definition edgehog_ota_event (object_event : option (list object_entry))
    : M edgehog_result_t :=
  match object_event with
  | None => ret EDGEHOG_RESULT_OTA_INVALID_REQUEST
  | Some es =>
    match scan_entries es with
    | (Some req_uuid, ota_url, Some ota_operation) =>
      if String.eqb "Update" ota_operation then
        match ota_url with
        | None => ret EDGEHOG_RESULT_OTA_INVALID_REQUEST
        | Some url => edgehog_ota_event_update req_uuid url
        end
      else if String.eqb "Cancel" ota_operation then edgehog_ota_event_cancel req_uuid
      else
        pub_ota_event req_uuid OTA_EVENT_FAILURE 0 EDGEHOG_RESULT_OTA_INVALID_REQUEST "" ;;;
        ret EDGEHOG_RESULT_OTA_INVALID_REQUEST
    | _ => ret EDGEHOG_RESULT_OTA_INVALID_REQUEST
    end
  end.

(** The value the scan keeps for [path]: that of the last entry with it. *)
Definition last_value (path : string) (es : list object_entry) : option string :=
  fold_left (fun acc e => if String.eqb (entry_path e) path then Some (entry_string e) else acc)
    es None.

(** ** The settings loader [ota_settings_loader], byte by byte *)

Definition NUL : ascii := Ascii.zero.

(** Zephyr's [settings_name_next(name, &next)]: the length of the first
    component of [name], which ends at the end of the string, at the name
    end mark ['='] or at the separator ['/']; [next] points after a ['/']
    and is NULL otherwise. *)
Fixpoint settings_name_next (name : string) : nat * option string :=
  match name with
  | EmptyString => (0, None)
  | String c rest =>
    if Ascii.eqb c "="%char then (0, None)
    else if Ascii.eqb c "/"%char then (0, Some rest)
    else let (n, nx) := settings_name_next rest in (S n, nx)
  end.

(** [strncmp(s1, s2, n) == 0]: the first [n] characters agree, the
    comparison stopping where both strings end. *)
Fixpoint strncmp_eq (s1 s2 : string) (n : nat) : bool :=
  match n, s1, s2 with
  | O, _, _ => true
  | S _, EmptyString, EmptyString => true
  | S n', String c1 r1, String c2 r2 => Ascii.eqb c1 c2 && strncmp_eq r1 r2 n'
  | S _, _, _ => false
  end.

(** The bytes of [ota_settings_t]: [char uuid[ASTARTE_UUID_STR_LEN + 1]]
    and [uint8_t ota_state]. *)
Record ota_settings_buf := mk_ota_buf { uuid_buf : list ascii; ota_state_byte : Z }.

(** [ota_settings_t ota_settings = { 0 }]. *)
Definition ota_buf_zero : ota_settings_buf :=
  mk_ota_buf (repeat NUL (ASTARTE_UUID_STR_LEN + 1)) 0.

(** The backend's [read_cb(cb_arg, data, len)]: a failure with its return
    code, or the stored value, whose first [len] bytes are copied to
    [data]. *)
Inductive read_result := RD_err (rc : Z) | RD_value (v : list ascii).

Definition copy_into (dst src : list ascii) (len : nat) : list ascii :=
  let n := firstn len src in n ++ skipn (List.length n) dst.

Definition ENOENT : Z := 2.

Definition ota_settings_loader (key : string) (read_cb : read_result)
    (dest : ota_settings_buf) : Z * ota_settings_buf :=
  let (key_len, next) := settings_name_next key in
  match next with
  | Some _ => ((- ENOENT)%Z, dest)
  | None =>
    if strncmp_eq key OTA_STATE_KEY key_len then
      match read_cb with
      | RD_err res => if (res <? 0)%Z then (res, dest) else (0%Z, dest)
      | RD_value v =>
        (* one byte is copied, none from an empty value *)
        (0%Z, mk_ota_buf (uuid_buf dest)
              (match v with c :: _ => Z.of_nat (nat_of_ascii c) | [] => ota_state_byte dest end))
      end
    else if strncmp_eq key OTA_REQUEST_ID_KEY key_len then
      match read_cb with
      | RD_err res => if (res <? 0)%Z then (res, dest) else (0%Z, dest)
      | RD_value v =>
        (0%Z, mk_ota_buf (copy_into (uuid_buf dest) v (ASTARTE_UUID_STR_LEN + 1))
                       (ota_state_byte dest))
      end
    else ((- ENOENT)%Z, dest)
  end.

(** [strlen] over the [uuid] array: [None] when the array holds no NUL, the
    scan then running past its end. *)
Fixpoint c_strlen (b : list ascii) : option nat :=
  match b with
  | [] => None
  | c :: r => if Ascii.eqb c NUL then Some 0 else option_map S (c_strlen r)
  end.

(** The C string held by the array: its characters before the first NUL. *)
Fixpoint c_string (b : list ascii) : string :=
  match b with
  | [] => EmptyString
  | c :: r => if Ascii.eqb c NUL then EmptyString else String c (c_string r)
  end.

(** The [ASTARTE_UUID_STR_LEN + 1] bytes [perform_ota] saves under
    [req_id], read from the heap copy of the uuid ([strlen(uuid) + 1]
    bytes, NUL last). [None] when the copy is shorter: the read then runs
    past the allocation. *)
Definition req_id_bytes (uuid : string) : option (list ascii) :=
  let copy := list_ascii_of_string uuid ++ [NUL] in
  if Nat.leb (ASTARTE_UUID_STR_LEN + 1) (List.length copy)
  then Some (firstn (ASTARTE_UUID_STR_LEN + 1) copy) else None.

(** A settings key of one component: no separator ['/'], no end mark ['=']. *)
Definition plain_key (k : string) : bool :=
  forallb (fun c => negb (Ascii.eqb c "/"%char) && negb (Ascii.eqb c "="%char))
    (list_ascii_of_string k).

(** A string with no NUL character, as every C string's contents. *)
Definition no_nul (s : string) : bool :=
  forallb (fun c => negb (Ascii.eqb c NUL)) (list_ascii_of_string s).

(** An entry whose path the scan of [edgehog_ota_event] looks at. *)
Definition relevant_entry (e : object_entry) : bool :=
  String.eqb (entry_path e) "uuid" || String.eqb (entry_path e) "url"
  || String.eqb (entry_path e) "operation".

(** * Properties *)

Example update_then_worker_happy :
  let w1 := snd (edgehog_ota_event_update uuid_a url_a (world_idle env_all_ok)) in
  let w2 := snd (ota_thread_entry_point
                   (mk_world (w_td w1) (w_store w1) (w_trace w1) [transfer_full] [] (w_env w1))) in
  downloading_progress (w_trace w2) = [0; 50; 100]%Z /\ In A_Reboot (w_trace w2).
Proof. vm_compute. split; [reflexivity | tauto]. Qed.

(** C1 (code bug). A preparation failure of an admitted Update is not
    always a [Failure / InternalError] that leaves the run bit clear: when
    [k_thread_create] fails the run bit stays set, so the next Update is
    refused with [UpdateAlreadyInProgress]; when the uuid [calloc] fails no
    event is emitted at all. *)
Theorem update_prep_failure_bug :
  (let e := mk_env true true false true true true true true true true true
              BOOT_SWAP_TYPE_NONE false true in
   let (r1, w1) := edgehog_ota_event_update uuid_a url_a (world_idle e) in
   r1 = EDGEHOG_RESULT_THREAD_CREATE_ERROR /\
   w_trace w1 = [A_ThreadCreate;
                 A_Pub (mk_event uuid_a OTA_EVENT_FAILURE 0 "InternalError" "")] /\
   ota_run_state (w_td w1) = true /\
   edgehog_ota_event_update uuid_b url_a w1 =
     (EDGEHOG_RESULT_OTA_ALREADY_IN_PROGRESS,
      add_act (A_Pub (mk_event uuid_b OTA_EVENT_FAILURE 0 "UpdateAlreadyInProgress" "")) w1)) /\
  (let e := mk_env false true true true true true true true true true true
              BOOT_SWAP_TYPE_NONE false true in
   let (r1, w1) := edgehog_ota_event_update uuid_a url_a (world_idle e) in
   r1 = EDGEHOG_RESULT_OUT_OF_MEMORY /\ w_trace w1 = [] /\
   ota_run_state (w_td w1) = false).
Proof. vm_compute. repeat split; reflexivity. Qed.

Ltac reconcile_fin :=
  split;
  [ rewrite <- !app_assoc; reflexivity
  | split;
    [ let a := fresh "a" in let Ha := fresh "Ha" in
      intros a Ha; simpl in Ha;
      repeat (destruct Ha as [Ha|Ha];
              [subst; first [left; reflexivity | right; eexists; reflexivity] |]);
      contradiction
    | intros ? ?; try discriminate; reflexivity ] ].

(** C6. At boot, with a persisted 36-character [req_id], state REBOOT, swap
    type NONE, an unconfirmed image and a successful
    [boot_write_img_confirmed], the reconciler emits [Success] for that
    [req_id], then deletes [req_id] and persists state IDLE; when the settings
    writes succeed the record is cleared. *)
Theorem reconcile_success_clears (w : world) (s : string)
  (Hload : e_settings_load_ok (w_env w) = true)
  (Hid : st_req_id (w_store w) = Some s)
  (Hlen : String.length s = ASTARTE_UUID_STR_LEN)
  (Hstate : st_state (w_store w) = Some OTA_STATE_REBOOT)
  (Hswap : e_swap_type (w_env w) = BOOT_SWAP_TYPE_NONE)
  (Hconf : e_img_confirmed (w_env w) = false)
  (Hok : e_confirm_ok (w_env w) = true) :
  let w' := snd (edgehog_ota_init w) in
  w_trace w' = w_trace w ++
    [A_SettingsLoad; A_ConfirmImage;
     A_Pub (mk_event s OTA_EVENT_SUCCESS 0 "" "");
     A_Delete OTA_REQUEST_ID_KEY; A_Save OTA_STATE_KEY (SV_byte OTA_STATE_IDLE)] /\
  (e_settings_delete_ok (w_env w) = true -> e_settings_save_ok (w_env w) = true ->
   w_store w' = mk_store (Some OTA_STATE_IDLE) None).
Proof.
  destruct w as [td [st rid] tr sc sch e]; destruct e; simpl in *; subst.
  unfold edgehog_ota_init, edgehog_settings_load_ota, bind, ret, gets, modify, log,
    env_of, pub_ota_event, edgehog_settings_delete, edgehog_settings_save; simpl.
  rewrite Hlen; simpl.
  split.
  - destruct e_settings_delete_ok0, e_settings_save_ok0; simpl;
      rewrite <- !app_assoc; reflexivity.
  - intros -> ->; reflexivity.
Qed.

(** C9. Whenever the settings load of the reconciler succeeds, it ends by
    deleting [req_id] and persisting state IDLE, on every branch (the
    actions before are only the load, the image confirmation and at most one
    event); a load failure returns after the load without touching the
    persisted record. *)
Theorem reconcile_always_clears (w : world) :
  let w' := snd (edgehog_ota_init w) in
  (e_settings_load_ok (w_env w) = true ->
   exists mid,
     w_trace w' = w_trace w ++ [A_SettingsLoad] ++ mid ++
       [A_Delete OTA_REQUEST_ID_KEY; A_Save OTA_STATE_KEY (SV_byte OTA_STATE_IDLE)] /\
     (forall a, In a mid -> a = A_ConfirmImage \/ exists e, a = A_Pub e) /\
     (e_settings_delete_ok (w_env w) = true -> e_settings_save_ok (w_env w) = true ->
      w_store w' = mk_store (Some OTA_STATE_IDLE) None)) /\
  (e_settings_load_ok (w_env w) = false ->
   w_trace w' = w_trace w ++ [A_SettingsLoad] /\ w_store w' = w_store w).
Proof.
  destruct w as [td [st rid] tr sc sch e]; destruct e; simpl.
  unfold edgehog_ota_init, edgehog_settings_load_ota, bind, ret, gets, modify, log,
    env_of, pub_ota_event, edgehog_settings_delete, edgehog_settings_save; simpl.
  destruct e_settings_load_ok0; split; intro Hl; try discriminate; simpl.
  2: split; reflexivity.
  set (u := match rid with Some u => u | None => "" end).
  set (stv := match st with Some b => b | None => 0%Z end).
  destruct e_settings_delete_ok0, e_settings_save_ok0, e_swap_type0, e_img_confirmed0,
    e_confirm_ok0, (Nat.eqb (String.length u) ASTARTE_UUID_STR_LEN),
    (Z.eqb stv OTA_STATE_REBOOT); cbn.
  all: first
    [ exists []; reconcile_fin
    | exists [A_Pub (mk_event u OTA_EVENT_FAILURE 0 "InternalError" "")]; reconcile_fin
    | exists [A_ConfirmImage; A_Pub (mk_event u OTA_EVENT_FAILURE 0 "InternalError" "")];
      reconcile_fin
    | exists [A_ConfirmImage; A_Pub (mk_event u OTA_EVENT_SUCCESS 0 "" "")]; reconcile_fin ].
Qed.

(** ** Generic reasoning on [steps] *)

Section Steps.
Variable R : world -> world -> Prop.
Hypothesis R_refl : forall w, R w w.
Hypothesis R_trans : forall w1 w2 w3, R w1 w2 -> R w2 w3 -> R w1 w3.

Lemma steps_ret {A} (a : A) : steps R (ret a).
Proof. intro w. apply R_refl. Qed.

Lemma steps_gets {A} (f : world -> A) : steps R (gets f).
Proof. intro w. apply R_refl. Qed.

Lemma steps_bind {A B} (m : M A) (f : A -> M B) :
  steps R m -> (forall a, steps R (f a)) -> steps R (bind m f).
Proof.
  intros Hm Hf w. unfold bind. specialize (Hm w).
  destruct (m w) as [a w1] eqn:E. simpl in Hm.
  eapply R_trans; [exact Hm | apply Hf].
Qed.

Lemma steps_modify (f : world -> world) : (forall w, R w (f w)) -> steps R (modify f).
Proof. intros H w. apply H. Qed.
End Steps.

Lemma only_refl P w : only P w w.
Proof. exists []. rewrite app_nil_r. auto. Qed.

Lemma only_trans P w1 w2 w3 : only P w1 w2 -> only P w2 w3 -> only P w1 w3.
Proof.
  intros [a1 [E1 F1]] [a2 [E2 F2]]. exists (a1 ++ a2).
  rewrite E2, E1, app_assoc, forallb_app, F1, F2. auto.
Qed.

Lemma keeps_clear_refl w : keeps_clear w w.
Proof. intro H. exact H. Qed.

Lemma keeps_clear_trans w1 w2 w3 : keeps_clear w1 w2 -> keeps_clear w2 w3 -> keeps_clear w1 w3.
Proof. unfold keeps_clear. auto. Qed.

Lemma only_log P a : P a = true -> steps (only P) (log a).
Proof. intros H w. exists [a]. simpl. rewrite H. auto. Qed.

Lemma only_td P f : forall w, only P w (set_td f w).
Proof. intro w. exists []. simpl. rewrite app_nil_r. auto. Qed.

Lemma only_store P w s : only P w (set_store s w).
Proof. exists []. simpl. rewrite app_nil_r. auto. Qed.

Lemma keeps_clear_log a : steps keeps_clear (log a).
Proof. intros w H. exact H. Qed.

Lemma keeps_clear_store w s : keeps_clear w (set_store s w).
Proof. intros H. exact H. Qed.

Lemma keeps_clear_td f :
  (forall t, ota_run_state t = false -> ota_run_state (f t) = false) ->
  forall w, keeps_clear w (set_td f w).
Proof. intros H w Hw. apply H, Hw. Qed.

Create HintDb steps_db.
#[local] Hint Resolve only_refl only_trans keeps_clear_refl keeps_clear_trans
  only_td only_store keeps_clear_store keeps_clear_log keeps_clear_td : steps_db.

(** Decompose a monadic program into its primitive actions. *)
Ltac steps_tac :=
  repeat match goal with
  | |- steps _ (bind _ _) => apply steps_bind; [eauto with steps_db .. | | intro]
  | |- steps _ (ret _) => apply steps_ret; eauto with steps_db
  | |- steps _ (gets _) => apply steps_gets; eauto with steps_db
  | |- steps _ (env_of _) => apply steps_gets; eauto with steps_db
  | |- steps _ run_bit => apply steps_gets; eauto with steps_db
  | |- steps _ (modify _) => apply steps_modify; eauto with steps_db
  | |- steps (only _) (log _) => apply only_log; reflexivity
  | |- steps _ (log _) => eauto with steps_db
  | |- steps (only _) (pub_ota_event _ _ _ _ _) => apply only_log; reflexivity
  | |- steps _ (pub_ota_event _ _ _ _ _) => eauto with steps_db
  | |- steps _ (if ?b then _ else _) => destruct b
  | |- steps _ (let (_, _) := ?p in _) => destruct p
  | |- steps _ (match ?x with _ => _ end) => destruct x
  | |- steps _ edgehog_settings_init => unfold edgehog_settings_init
  | |- steps _ edgehog_settings_load_ota => unfold edgehog_settings_load_ota
  | |- steps _ edgehog_http_download_abort => unfold edgehog_http_download_abort
  | |- steps _ (edgehog_settings_save _ _ _) => unfold edgehog_settings_save
  | |- steps _ (edgehog_settings_delete _ _) => unfold edgehog_settings_delete
  | |- steps _ ota_selfdestruct => unfold ota_selfdestruct
  | |- steps _ _ => solve [eauto with steps_db]
  end.

Lemma cancel_only (u : string) : steps (only attempt_act) (edgehog_ota_event_cancel u).
Proof. unfold edgehog_ota_event_cancel. steps_tac. Qed.

Lemma cancel_keeps_clear (u : string) : steps keeps_clear (edgehog_ota_event_cancel u).
Proof. unfold edgehog_ota_event_cancel. steps_tac. Qed.

(** A change of the schedule alone relates by any [R] that only looks at
    the thread data and the trace. *)
Lemma sched_pop_only P w rest :
  only P w (mk_world (w_td w) (w_store w) (w_trace w) (w_scripts w) rest (w_env w)).
Proof. exists []. simpl. rewrite app_nil_r. auto. Qed.

Lemma sched_pop_keeps_clear w rest :
  keeps_clear w (mk_world (w_td w) (w_store w) (w_trace w) (w_scripts w) rest (w_env w)).
Proof. intro H. exact H. Qed.

Lemma scripts_pop_only P w rest :
  only P w (mk_world (w_td w) (w_store w) (w_trace w) rest (w_sched w) (w_env w)).
Proof. exists []. simpl. rewrite app_nil_r. auto. Qed.

Lemma yield_only : steps (only attempt_act) yield.
Proof.
  intro w. unfold yield. destruct (w_sched w) as [|[u|] rest].
  - apply only_refl.
  - eapply only_trans; [apply (sched_pop_only _ w rest)|].
    apply (steps_bind _ (only_trans _)); [apply cancel_only|].
    intro r. apply only_log. reflexivity.
  - apply sched_pop_only.
Qed.

Lemma yield_keeps_clear : steps keeps_clear yield.
Proof.
  intro w. unfold yield. destruct (w_sched w) as [|[u|] rest].
  - apply keeps_clear_refl.
  - eapply keeps_clear_trans; [apply (sched_pop_keeps_clear w rest)|].
    apply (steps_bind _ keeps_clear_trans); [apply cancel_keeps_clear|].
    intro r. apply keeps_clear_log.
  - intro H; exact H.
Qed.

Lemma next_script_only : steps (only attempt_act) next_script.
Proof.
  intro w. unfold next_script. destruct (w_scripts w) as [|s rest];
    [apply only_refl | apply scripts_pop_only].
Qed.

Lemma next_script_keeps_clear : steps keeps_clear next_script.
Proof.
  intro w. unfold next_script. destruct (w_scripts w) as [|s rest]; intro H; exact H.
Qed.

#[local] Hint Resolve yield_only yield_keeps_clear next_script_only
  next_script_keeps_clear : steps_db.

Lemma sink_only c : steps (only attempt_act) (http_download_payload_cbk c).
Proof. unfold http_download_payload_cbk. steps_tac. Qed.

Lemma sink_keeps_clear c : steps keeps_clear (http_download_payload_cbk c).
Proof. unfold http_download_payload_cbk. steps_tac. Qed.

#[local] Hint Resolve sink_only sink_keeps_clear : steps_db.

Lemma deliver_only cs sc : steps (only attempt_act) (http_deliver cs sc).
Proof. induction cs; simpl; steps_tac. Qed.

Lemma deliver_keeps_clear cs sc : steps keeps_clear (http_deliver cs sc).
Proof. induction cs; simpl; steps_tac. Qed.

#[local] Hint Resolve deliver_only deliver_keeps_clear : steps_db.

Lemma download_only url : steps (only attempt_act) (edgehog_http_download url).
Proof. unfold edgehog_http_download. steps_tac. Qed.

Lemma download_keeps_clear url : steps keeps_clear (edgehog_http_download url).
Proof. unfold edgehog_http_download. steps_tac. Qed.

#[local] Hint Resolve download_only download_keeps_clear : steps_db.

Lemma attempt_only : steps (only attempt_act) perform_ota_attempt.
Proof. unfold perform_ota_attempt. steps_tac. Qed.

Lemma attempt_keeps_clear : steps keeps_clear perform_ota_attempt.
Proof. unfold perform_ota_attempt. steps_tac. Qed.

Lemma retry_trace_app l1 l2 : retry_trace (l1 ++ l2) = retry_trace l1 ++ retry_trace l2.
Proof. unfold retry_trace. apply flat_map_app. Qed.

Lemma retry_trace_cons a l : retry_trace (a :: l) = retry_view a ++ retry_trace l.
Proof. reflexivity. Qed.

Lemma retry_trace_attempt_acts l : forallb attempt_act l = true -> retry_trace l = [].
Proof.
  induction l as [|a l IH]; simpl; auto.
  intro H. apply andb_prop in H as [Ha Hl].
  destruct a; try discriminate; simpl; try apply IH; auto.
  destruct e as [? [] ? ? ?]; try discriminate; simpl; apply IH; auto.
Qed.

Lemma ota_attempt_loop_policy n : forall u res w,
  n + u = MAX_OTA_RETRY ->
  let (r, w') := ota_attempt_loop n u res w in
  exists added, w_trace w' = w_trace w ++ added /\
                retry_policy u res (retry_trace added) r.
Proof.
  induction n as [|n IH]; intros u res w Hn.
  - simpl in Hn. subst u. exists []. rewrite app_nil_r. split; [reflexivity|].
    apply rp_exhausted.
  - simpl ota_attempt_loop. unfold bind at 1, gets at 1.
    unfold bind at 1, pub_ota_event at 1, log at 1, modify at 1.
    set (w1 := add_act _ w).
    unfold bind at 1.
    destruct (perform_ota_attempt w1) as [r w2] eqn:E.
    destruct (attempt_only w1) as [a1 [T1 F1]]. rewrite E in T1. simpl in T1.
    unfold bind at 1, log at 1, modify at 1.
    destruct (ok_or_canceled r) eqn:Hr.
    + exists (A_Pub (mk_event (req_uuid (w_td w)) OTA_EVENT_DOWNLOADING 0 "" "") :: a1
              ++ [A_AttemptDone u r]).
      unfold ret. simpl. rewrite T1. unfold w1. simpl.
      split; [rewrite <- !app_assoc; reflexivity|].
      rewrite retry_trace_app. simpl. rewrite retry_trace_attempt_acts by exact F1.
      simpl. apply rp_stop; [unfold MAX_OTA_RETRY in *; lia | exact Hr].
    + unfold bind at 1, log at 1, modify at 1.
      set (w4 := add_act (A_Sleep _) (add_act _ w2)).
      unfold bind at 1.
      destruct (yield w4) as [[] w5] eqn:Ey.
      destruct (yield_only w4) as [a2 [T2 F2]]. rewrite Ey in T2. simpl in T2.
      unfold bind at 1, pub_ota_event at 1, log at 1, modify at 1.
      set (w6 := add_act _ w5).
      specialize (IH (S u) r w6 ltac:(lia)).
      destruct (ota_attempt_loop n (S u) r w6) as [rf wf] eqn:El.
      destruct IH as [a3 [T3 P3]].
      exists (A_Pub (mk_event (req_uuid (w_td w)) OTA_EVENT_DOWNLOADING 0 "" "") :: a1
              ++ [A_AttemptDone u r; A_Sleep (Z.of_nat u * OTA_ATTEMPS_DELAY_MS)] ++ a2
              ++ [A_Pub (mk_event (req_uuid (w_td w)) OTA_EVENT_ERROR 0 (status_code r) "")]
              ++ a3).
      split.
      * rewrite T3. unfold w6. simpl. rewrite T2. unfold w4. simpl. rewrite T1.
        unfold w1. simpl. rewrite <- !app_assoc. reflexivity.
      * rewrite retry_trace_cons, !retry_trace_app. simpl.
        rewrite retry_trace_attempt_acts by exact F1.
        rewrite retry_trace_attempt_acts by exact F2. simpl.
        apply rp_retry; [unfold MAX_OTA_RETRY in *; lia | exact Hr | exact P3].
Qed.

Lemma retry_policy_attempts u last v r :
  retry_policy u last v r -> attempts_of v + u <= MAX_OTA_RETRY.
Proof.
  induction 1; unfold attempts_of in *; simpl in *; unfold MAX_OTA_RETRY in *; lia.
Qed.

Lemma only_weaken (P Q : act -> bool) w w' :
  (forall a, P a = true -> Q a = true) -> only P w w' -> only Q w w'.
Proof.
  intros H [added [T F]]. exists added. split; [exact T|].
  rewrite forallb_forall in *. auto.
Qed.

Lemma yield_any : steps (only (fun _ => true)) yield.
Proof. intro w. eapply only_weaken; [|apply yield_only]. auto. Qed.

#[local] Hint Resolve yield_any : steps_db.

Lemma settings_save_trace ns k v w :
  w_trace (snd (edgehog_settings_save ns k v w)) = w_trace w ++ [A_Save k v].
Proof.
  unfold edgehog_settings_save, bind, log, modify, env_of, gets, ret; simpl.
  destruct (e_settings_save_ok (w_env w)); reflexivity.
Qed.

Lemma result_eqb_refl r : result_eqb r r = true.
Proof. unfold result_eqb. destruct (result_eq_dec r r); congruence. Qed.

Lemma result_eqb_neq r r' : r <> r' -> result_eqb r r' = false.
Proof. unfold result_eqb. destruct (result_eq_dec r r'); congruence. Qed.

Lemma attempt_decision w :
  fst (perform_ota_attempt w) =
  let (rd, w1) := edgehog_http_download (req_download_url (w_td w)) w in
  if negb (ota_run_state (w_td w1)) then EDGEHOG_RESULT_OTA_CANCELED
  else if negb (result_eqb rd EDGEHOG_RESULT_OK) then rd
  else if N.eqb (flash_bytes_written (w_td w1)) 0
          || negb (N.eqb (flash_bytes_written (w_td w1)) (image_size (w_td w1)))
  then EDGEHOG_RESULT_NETWORK_ERROR else EDGEHOG_RESULT_OK.
Proof.
  unfold perform_ota_attempt, bind, gets, modify, ret, run_bit. simpl.
  destruct (edgehog_http_download (req_download_url (w_td w)) w) as [rd w1].
  destruct (ota_run_state (w_td w1)); simpl; [|reflexivity].
  destruct (result_eqb rd EDGEHOG_RESULT_OK); simpl; [|reflexivity].
  destruct (_ || _); reflexivity.
Qed.

Lemma loop_exits_on_ok n u res w :
  let w0 := add_act (A_Pub (mk_event (req_uuid (w_td w)) OTA_EVENT_DOWNLOADING 0 "" "")) w in
  fst (perform_ota_attempt w0) = EDGEHOG_RESULT_OK ->
  ota_attempt_loop (S n) u res w =
    (EDGEHOG_RESULT_OK, add_act (A_AttemptDone u EDGEHOG_RESULT_OK) (snd (perform_ota_attempt w0))).
Proof.
  intros w0 Hok. simpl ota_attempt_loop.
  unfold bind at 1, gets at 1, bind at 1, pub_ota_event, log at 1, modify at 1.
  change (status_code EDGEHOG_RESULT_OK) with "". fold w0. unfold bind at 1.
  destruct (perform_ota_attempt w0) as [r w2] eqn:E. simpl in Hok. subst r.
  reflexivity.
Qed.

(** C4. After the download of an attempt returns, the attempt's result is
    decided in this order: a clear run bit gives OTA_CANCELED whatever the
    download returned; otherwise a download error is returned as is;
    otherwise a [bytes_written] of 0 or different from [image_size] gives
    NETWORK_ERROR; otherwise OK, on which the attempt loop returns at once. *)
Theorem attempt_result_order (w : world) :
  let (rd, w1) := edgehog_http_download (req_download_url (w_td w)) w in
  let r := fst (perform_ota_attempt w) in
  let written := flash_bytes_written (w_td w1) in
  (ota_run_state (w_td w1) = false -> r = EDGEHOG_RESULT_OTA_CANCELED) /\
  (ota_run_state (w_td w1) = true -> rd <> EDGEHOG_RESULT_OK -> r = rd) /\
  (ota_run_state (w_td w1) = true -> rd = EDGEHOG_RESULT_OK ->
   (written = 0%N \/ written <> image_size (w_td w1)) -> r = EDGEHOG_RESULT_NETWORK_ERROR) /\
  (ota_run_state (w_td w1) = true -> rd = EDGEHOG_RESULT_OK ->
   written <> 0%N -> written = image_size (w_td w1) -> r = EDGEHOG_RESULT_OK) /\
  (forall n u res,
   let w0 := add_act (A_Pub (mk_event (req_uuid (w_td w)) OTA_EVENT_DOWNLOADING 0 "" "")) w in
   fst (perform_ota_attempt w0) = EDGEHOG_RESULT_OK ->
   ota_attempt_loop (S n) u res w =
     (EDGEHOG_RESULT_OK, add_act (A_AttemptDone u EDGEHOG_RESULT_OK) (snd (perform_ota_attempt w0)))).
Proof.
  pose proof (attempt_decision w) as D.
  destruct (edgehog_http_download (req_download_url (w_td w)) w) as [rd w1] eqn:Ed.
  cbv zeta. rewrite D.
  repeat split.
  - intros H. rewrite H. reflexivity.
  - intros H Hrd. rewrite H. simpl. rewrite result_eqb_neq by exact Hrd. reflexivity.
  - intros H Hrd Hw. subst rd. rewrite H. simpl.
    destruct Hw as [Hw|Hw].
    + rewrite Hw. reflexivity.
    + destruct (N.eqb_spec (flash_bytes_written (w_td w1)) 0); simpl; [reflexivity|].
      destruct (N.eqb_spec (flash_bytes_written (w_td w1)) (image_size (w_td w1)));
        [contradiction | reflexivity].
  - intros H Hrd Hw Heq. subst rd. rewrite H. simpl.
    rewrite Heq, N.eqb_refl.
    destruct (N.eqb_spec (image_size (w_td w1)) 0); [congruence|reflexivity].
  - intros n u res Hok. apply loop_exits_on_ok. exact Hok.
Qed.

(** C5. When the attempt loop succeeded, the worker publishes [Deploying],
    then writes state REBOOT to the settings, and only after that reads the
    secondary bank header; [boot_request_upgrade] can only come later. *)
Theorem reboot_state_saved_first (w : world) :
  exists rest,
    w_trace (snd (after_perform_ota EDGEHOG_RESULT_OK w)) =
      w_trace w ++
      [A_Pub (mk_event (req_uuid (w_td w)) OTA_EVENT_DEPLOYING 0 "" "");
       A_Save OTA_STATE_KEY (SV_byte OTA_STATE_REBOOT);
       A_ReadHeader] ++ rest.
Proof.
  unfold after_perform_ota, bind at 1, gets at 1. cbv beta.
  rewrite result_eqb_refl.
  unfold bind at 1, pub_ota_event at 1, log at 1, modify at 1.
  unfold bind at 1.
  set (w1 := add_act _ w).
  destruct (edgehog_settings_save OTA_KEY OTA_STATE_KEY (SV_byte OTA_STATE_REBOOT) w1)
    as [sr w2] eqn:Es.
  assert (T2 : w_trace w2 = w_trace w1 ++ [A_Save OTA_STATE_KEY (SV_byte OTA_STATE_REBOOT)]).
  { pose proof (settings_save_trace OTA_KEY OTA_STATE_KEY (SV_byte OTA_STATE_REBOOT) w1) as T.
    rewrite Es in T. exact T. }
  unfold bind at 1, log at 1, modify at 1.
  match goal with
  | |- exists rest, w_trace (snd (?k (add_act A_ReadHeader w2))) = _ =>
      assert (Hk : steps (only (fun _ => true)) k) by (steps_tac);
      destruct (Hk (add_act A_ReadHeader w2)) as [added [Tk _]]
  end.
  exists added. rewrite Tk. simpl. rewrite T2. unfold w1. simpl.
  rewrite <- !app_assoc. reflexivity.
Qed.

(** C7. The attempt loop runs at most [MAX_OTA_RETRY] = 5 attempts; after a
    failed attempt other than a cancellation it sleeps [attempt_index * 2000]
    ms and then emits [Error] with that attempt's status code; OK and
    OTA_CANCELED end it at once with no sleep and no [Error]; after 5 failed
    attempts it returns the last error, which the worker turns into a
    terminal [Failure] with that status code. *)
Theorem retry_loop_policy (w : world) :
  let (r, w') := ota_attempt_loop MAX_OTA_RETRY 0 EDGEHOG_RESULT_OK w in
  exists added, w_trace w' = w_trace w ++ added /\
    retry_policy 0 EDGEHOG_RESULT_OK (retry_trace added) r /\
    attempts_of (retry_trace added) <= MAX_OTA_RETRY /\
    (r <> EDGEHOG_RESULT_OK ->
     exists rest, w_trace (snd (after_perform_ota r w')) =
       w_trace w' ++ A_Pub (mk_event (req_uuid (w_td w')) OTA_EVENT_FAILURE 0 (status_code r) "")
                  :: rest).
Proof.
  pose proof (ota_attempt_loop_policy MAX_OTA_RETRY 0 EDGEHOG_RESULT_OK w ltac:(reflexivity))
    as H.
  destruct (ota_attempt_loop MAX_OTA_RETRY 0 EDGEHOG_RESULT_OK w) as [r w'].
  destruct H as [added [T P]]. exists added.
  split; [exact T|]. split; [exact P|].
  split; [pose proof (retry_policy_attempts _ _ _ _ P); lia|].
  intros Hr.
  unfold after_perform_ota, bind at 1, gets at 1. cbv beta.
  rewrite result_eqb_neq by exact Hr.
  unfold bind at 1, pub_ota_event at 1, log at 1, modify at 1.
  match goal with
  | |- exists rest, w_trace (snd (?k (add_act ?a w'))) = _ =>
      assert (Hk : steps (only (fun _ => true)) k) by (steps_tac);
      destruct (Hk (add_act a w')) as [added' [Tk _]]
  end.
  exists added'. rewrite Tk. simpl. rewrite <- app_assoc. reflexivity.
Qed.

(** ** A clear run bit freezes the sink *)

Lemma cleared_frozen_refl w : cleared_frozen w w.
Proof. intros H. repeat split; auto. apply only_refl. Qed.

Lemma cleared_frozen_trans w1 w2 w3 :
  cleared_frozen w1 w2 -> cleared_frozen w2 w3 -> cleared_frozen w1 w3.
Proof.
  intros H12 H23 H1.
  destruct (H12 H1) as (R2 & F2 & I2 & D2 & L2 & O2).
  destruct (H23 R2) as (R3 & F3 & I3 & D3 & L3 & O3).
  repeat split; try congruence. eapply only_trans; eassumption.
Qed.

Lemma cancel_cleared_frozen u : steps cleared_frozen (edgehog_ota_event_cancel u).
Proof.
  intros w H. unfold edgehog_ota_event_cancel, bind at 1, run_bit, gets. cbn.
  rewrite H. cbn. repeat split; auto. exists [A_Pub (mk_event u OTA_EVENT_FAILURE 0
    (status_code EDGEHOG_RESULT_OTA_INVALID_REQUEST)
    "Unable to cancel OTA update request, no OTA update running.")]. auto.
Qed.

Lemma sched_pop_cleared_frozen w rest :
  cleared_frozen w (mk_world (w_td w) (w_store w) (w_trace w) (w_scripts w) rest (w_env w)).
Proof. intros H. repeat split; auto. apply sched_pop_only. Qed.

Lemma yield_cleared_frozen : steps cleared_frozen yield.
Proof.
  intro w. unfold yield. destruct (w_sched w) as [|[u|] rest].
  - apply cleared_frozen_refl.
  - eapply cleared_frozen_trans; [apply (sched_pop_cleared_frozen w rest)|].
    apply (steps_bind _ cleared_frozen_trans); [apply cancel_cleared_frozen|].
    intros r w1 H. repeat split; auto. exists [A_CancelCmd u r]. auto.
  - intros H. repeat split; auto. apply sched_pop_only.
Qed.

Lemma sink_cleared w c :
  ota_run_state (w_td w) = false ->
  http_download_payload_cbk (Some c) w =
    (EDGEHOG_RESULT_OK, set_td (set_aborted true) (add_act A_Abort w)).
Proof.
  intros H. unfold http_download_payload_cbk, bind at 1, run_bit, gets. cbn.
  rewrite H. reflexivity.
Qed.

Lemma sink_cleared_frozen c : steps cleared_frozen (http_download_payload_cbk c).
Proof.
  intros w H. destruct c as [c|].
  - rewrite (sink_cleared w c H). cbn. repeat split; auto. exists [A_Abort]. auto.
  - apply cleared_frozen_refl, H.
Qed.

#[local] Hint Resolve cleared_frozen_refl cleared_frozen_trans yield_cleared_frozen
  sink_cleared_frozen : steps_db.

Lemma deliver_cleared_frozen cs sc : steps cleared_frozen (http_deliver cs sc).
Proof. induction cs; cbn [http_deliver]; steps_tac. Qed.

(** ** The Cancel handler and the worker's unwinding *)

Lemma cancel_accepted u w :
  ota_run_state (w_td w) = true ->
  e_settings_init_ok (w_env w) = true ->
  e_settings_load_ok (w_env w) = true ->
  String.length (uuid (ota_settings_of (w_store w))) = ASTARTE_UUID_STR_LEN ->
  edgehog_ota_event_cancel u w =
    (EDGEHOG_RESULT_OK, set_td (set_run false) (add_act A_SettingsLoad (add_act A_SettingsInit w))).
Proof.
  destruct w as [td st tr sc sch e]; destruct e; simpl.
  intros Hr Hi Hl Hn; subst.
  unfold edgehog_ota_event_cancel, edgehog_settings_init, edgehog_settings_load_ota,
    bind, run_bit, gets, env_of, log, modify, ret; simpl.
  rewrite Hr; simpl. rewrite Hn. reflexivity.
Qed.

Lemma attempt_canceled_when_clear w :
  ota_run_state (w_td w) = false -> fst (perform_ota_attempt w) = EDGEHOG_RESULT_OTA_CANCELED.
Proof.
  intros H. rewrite attempt_decision.
  pose proof (download_keeps_clear (req_download_url (w_td w)) w H) as K.
  destruct (edgehog_http_download (req_download_url (w_td w)) w) as [rd w1].
  simpl in K. rewrite K. reflexivity.
Qed.

Lemma loop_canceled_when_clear n u res w :
  ota_run_state (w_td w) = false -> fst (ota_attempt_loop (S n) u res w) = EDGEHOG_RESULT_OTA_CANCELED.
Proof.
  intros H. cbn [ota_attempt_loop]. unfold bind at 1, gets at 1. cbv beta.
  unfold bind at 1, pub_ota_event, log at 1, modify at 1. cbv beta.
  unfold bind at 1. set (w0 := add_act _ w).
  pose proof (attempt_canceled_when_clear w0 H) as C.
  destruct (perform_ota_attempt w0) as [r w2]. simpl in C. subst r. reflexivity.
Qed.

Lemma failure_published_first r w :
  r <> EDGEHOG_RESULT_OK ->
  exists rest, w_trace (snd (after_perform_ota r w)) =
    w_trace w ++ A_Pub (mk_event (req_uuid (w_td w)) OTA_EVENT_FAILURE 0 (status_code r) "") :: rest.
Proof.
  intros Hr.
  unfold after_perform_ota, bind at 1, gets at 1. cbv beta.
  rewrite result_eqb_neq by exact Hr.
  unfold bind at 1, pub_ota_event at 1, log at 1, modify at 1.
  match goal with
  | |- exists rest, w_trace (snd (?k (add_act ?a w))) = _ =>
      assert (Hk : steps (only (fun _ => true)) k) by (steps_tac);
      destruct (Hk (add_act a w)) as [added [Tk _]]
  end.
  exists added. rewrite Tk. simpl. rewrite <- app_assoc. reflexivity.
Qed.

(** ** The attempt loop never erases nor restarts the flash context *)

Lemma attempt_not_prep : steps (only not_prep) perform_ota_attempt.
Proof.
  intro w. eapply only_weaken; [|apply attempt_only].
  intros a; destruct a; simpl; auto.
Qed.

Lemma yield_not_prep : steps (only not_prep) yield.
Proof.
  intro w. eapply only_weaken; [|apply yield_only].
  intros a; destruct a; simpl; auto.
Qed.

#[local] Hint Resolve attempt_not_prep yield_not_prep : steps_db.

Lemma loop_not_prep n : forall u res, steps (only not_prep) (ota_attempt_loop n u res).
Proof. induction n; intros u res; cbn [ota_attempt_loop]; steps_tac. Qed.

(** ** No [Failure / Canceled] once the loop succeeded *)

Lemma cancel_no_canceled u : steps (only not_canceled_failure) (edgehog_ota_event_cancel u).
Proof. unfold edgehog_ota_event_cancel. steps_tac. Qed.

Lemma yield_no_canceled : steps (only not_canceled_failure) yield.
Proof.
  intro w. unfold yield. destruct (w_sched w) as [|[u|] rest].
  - apply only_refl.
  - eapply only_trans; [apply (sched_pop_only _ w rest)|].
    apply (steps_bind _ (only_trans _)); [apply cancel_no_canceled|].
    intro r. apply only_log. reflexivity.
  - apply sched_pop_only.
Qed.

#[local] Hint Resolve yield_no_canceled : steps_db.

Lemma deploy_no_canceled : steps (only not_canceled_failure) (after_perform_ota EDGEHOG_RESULT_OK).
Proof. unfold after_perform_ota. steps_tac. Qed.

(** C2 (code bug). The secondary bank is erased and the flash context
    started once, before the attempt loop, not in every attempt: no
    iteration of the loop erases or restarts the flash context. So after an
    attempt cut off after 512 of 1024 bytes, the retry that receives the
    whole image still fails with NETWORK_ERROR: [bytes_written] has grown to
    1536 and differs from [image_size]. *)
Theorem erase_once_before_loop :
  (forall n u res, steps (only not_prep) (ota_attempt_loop n u res)) /\
  (let w' := snd (ota_thread_entry_point (world_started [transfer_reset; transfer_full] [])) in
   List.length (filter is_erase (w_trace w')) = 1 /\
   List.length (filter is_flash_init (w_trace w')) = 1 /\
   In (A_AttemptDone 1 EDGEHOG_RESULT_NETWORK_ERROR) (w_trace w') /\
   flash_bytes_written (w_td w') = 1536%N /\
   image_size (w_td w') = 1024%N).
Proof.
  split.
  - intros n u res. apply loop_not_prep.
  - vm_compute. repeat split; try reflexivity. tauto.
Qed.

(** C3 (code bug). Within the retry of the scenario above the [Downloading]
    values are 0, 100, 150: the flash context kept the bytes of the first
    attempt, so the percent exceeds 100. The whole run emits
    0, 50, 0, 100, 150, then 0 at the start of each later attempt. *)
Theorem progress_overflow_on_retry :
  let w' := snd (ota_thread_entry_point (world_started [transfer_reset; transfer_full] [])) in
  downloading_progress (w_trace w') = [0; 50; 0; 100; 150; 0; 0; 0]%Z /\
  In (A_Pub (mk_event uuid_a OTA_EVENT_DOWNLOADING 150 "" "")) (w_trace w').
Proof. vm_compute. split; [reflexivity | tauto]. Qed.

(** C8 (counterexample). A Cancel for the in-flight uuid that arrives in
    the 5 s wait before the reboot is accepted with OK and clears the run
    bit, but the worker reboots all the same and no [Failure / Canceled]
    event is emitted. *)
Lemma cancel_in_reboot_wait_ignored :
  let w' := snd (ota_thread_entry_point (world_started [transfer_full] [None; None; None; Some uuid_a])) in
  In (A_CancelCmd uuid_a EDGEHOG_RESULT_OK) (w_trace w') /\
  In A_Reboot (w_trace w') /\
  ota_run_state (w_td w') = false /\
  existsb is_canceled_failure (w_trace w') = false.
Proof. vm_compute. repeat split; try reflexivity; tauto. Qed.

Lemma settings_save_env ns k v w :
  w_env (snd (edgehog_settings_save ns k v w)) = w_env w.
Proof.
  unfold edgehog_settings_save, bind, log, modify, env_of, gets, ret.
  simpl. destruct (e_settings_save_ok (w_env w)); reflexivity.
Qed.

Lemma deploy_reboots w :
  e_read_header_ok (w_env w) = true -> e_request_upgrade_ok (w_env w) = true ->
  exists pre, w_trace (snd (after_perform_ota EDGEHOG_RESULT_OK w)) = pre ++ [A_Reboot].
Proof.
  intros H1 H2. remember (snd (after_perform_ota EDGEHOG_RESULT_OK w)) as w' eqn:E.
  unfold after_perform_ota, bind, gets, pub_ota_event, log, modify, env_of, ret in E.
  cbn -[yield edgehog_settings_save] in E.
  match type of E with context [edgehog_settings_save ?ns ?k ?v ?x] =>
    pose proof (settings_save_env ns k v x) as Henv;
    destruct (edgehog_settings_save ns k v x) as [sr w1] end.
  simpl in Henv. cbn -[yield] in E. rewrite Henv, H1 in E. cbn -[yield] in E.
  rewrite Henv, H2 in E. cbn -[yield] in E.
  match type of E with context [yield ?x] => destruct (yield x) as [[] w3] end.
  subst. eexists. reflexivity.
Qed.

(** C8 (amended). While the run bit is set, a Cancel whose settings init and
    load succeed and whose loaded [req_id] has 36 characters clears the run
    bit and returns OK, whatever uuid the command carries. The worker
    unwinds with OTA_CANCELED, and then publishes [Failure / Canceled], when
    it finds the bit clear at the end of an attempt's download or at the
    start of an attempt. Once the attempt loop has returned OK the worker no
    longer looks at the bit: the deployment emits no [Failure / Canceled],
    and when the bootloader calls succeed it ends with the reboot, whatever
    command is handled during the wait before it. *)
Theorem cancel_clears_run_bit :
  (forall u w,
     ota_run_state (w_td w) = true ->
     e_settings_init_ok (w_env w) = true ->
     e_settings_load_ok (w_env w) = true ->
     String.length (uuid (ota_settings_of (w_store w))) = ASTARTE_UUID_STR_LEN ->
     edgehog_ota_event_cancel u w =
       (EDGEHOG_RESULT_OK,
        set_td (set_run false) (add_act A_SettingsLoad (add_act A_SettingsInit w)))) /\
  (forall w,
     ota_run_state (w_td (snd (edgehog_http_download (req_download_url (w_td w)) w))) = false ->
     fst (perform_ota_attempt w) = EDGEHOG_RESULT_OTA_CANCELED) /\
  (forall n u res w,
     ota_run_state (w_td w) = false ->
     fst (ota_attempt_loop (S n) u res w) = EDGEHOG_RESULT_OTA_CANCELED) /\
  (forall w, exists rest,
     w_trace (snd (after_perform_ota EDGEHOG_RESULT_OTA_CANCELED w)) =
       w_trace w ++ A_Pub (mk_event (req_uuid (w_td w)) OTA_EVENT_FAILURE 0 "Canceled" "") :: rest) /\
  (forall w, only not_canceled_failure w (snd (after_perform_ota EDGEHOG_RESULT_OK w))) /\
  (forall w,
     e_read_header_ok (w_env w) = true -> e_request_upgrade_ok (w_env w) = true ->
     exists pre, w_trace (snd (after_perform_ota EDGEHOG_RESULT_OK w)) = pre ++ [A_Reboot]).
Proof.
  split; [|split; [|split; [|split; [|split]]]].
  - intros u w. apply cancel_accepted.
  - intros w H. rewrite attempt_decision.
    destruct (edgehog_http_download (req_download_url (w_td w)) w) as [rd w1].
    simpl in H. rewrite H. reflexivity.
  - intros n u res w. apply loop_canceled_when_clear.
  - intros w. apply (failure_published_first EDGEHOG_RESULT_OTA_CANCELED w). discriminate.
  - apply deploy_no_canceled.
  - apply deploy_reboots.
Qed.

(** C10. When the sink finds the run bit clear it aborts the socket and
    returns OK: the only change is the abort, recorded in the trace, and the
    socket's aborted flag; no flash write, no change of [bytes_written],
    [image_size], [download_size] or [last_perc_sent], no event. From then on
    the transfer writes nothing: every later chunk finds the bit still clear,
    and the transfer adds no flash write and no [Downloading] event. *)
Theorem sink_cleared_no_write :
  (forall c w,
     ota_run_state (w_td w) = false ->
     http_download_payload_cbk (Some c) w =
       (EDGEHOG_RESULT_OK, set_td (set_aborted true) (add_act A_Abort w))) /\
  (forall cs sc w,
     ota_run_state (w_td w) = false ->
     let w' := snd (http_deliver cs sc w) in
     ota_run_state (w_td w') = false /\
     flash_bytes_written (w_td w') = flash_bytes_written (w_td w) /\
     image_size (w_td w') = image_size (w_td w) /\
     download_size (w_td w') = download_size (w_td w) /\
     last_perc_sent (w_td w') = last_perc_sent (w_td w) /\
     exists added, w_trace w' = w_trace w ++ added /\
       forallb (fun a => negb (is_flash_write a) && negb (is_pub_of OTA_EVENT_DOWNLOADING a))
         added = true).
Proof.
  split.
  - intros c w. apply sink_cleared.
  - intros cs sc w H. exact (deliver_cleared_frozen cs sc w H).
Qed.

(** ** Witnesses *)

Lemma reconcile_success_clears_witness :
  let w' := snd (edgehog_ota_init (world_boot env_all_ok)) in
  w_trace w' = [A_SettingsLoad; A_ConfirmImage;
     A_Pub (mk_event uuid_a OTA_EVENT_SUCCESS 0 "" "");
     A_Delete OTA_REQUEST_ID_KEY; A_Save OTA_STATE_KEY (SV_byte OTA_STATE_IDLE)] /\
  w_store w' = mk_store (Some OTA_STATE_IDLE) None.
Proof.
  destruct (reconcile_success_clears (world_boot env_all_ok) uuid_a
              eq_refl eq_refl eq_refl eq_refl eq_refl eq_refl eq_refl) as [T S].
  split; [exact T | apply S; reflexivity].
Defined.

Lemma cancel_clears_run_bit_witness :
  edgehog_ota_event_cancel uuid_b world_inflight =
    (EDGEHOG_RESULT_OK,
     set_td (set_run false) (add_act A_SettingsLoad (add_act A_SettingsInit world_inflight))).
Proof.
  destruct cancel_clears_run_bit as [H _].
  apply H; reflexivity.
Defined.

Lemma sink_cleared_no_write_witness :
  let w := set_td (set_run false) world_inflight in
  http_download_payload_cbk (Some (mk_chunk 512 1024 false true)) w =
    (EDGEHOG_RESULT_OK, set_td (set_aborted true) (add_act A_Abort w)) /\
  flash_bytes_written (w_td (snd (http_deliver (ds_chunks transfer_full) transfer_full w))) = 0%N.
Proof.
  destruct sink_cleared_no_write as [H1 H2].
  split; [apply H1; reflexivity|].
  destruct (H2 (ds_chunks transfer_full) transfer_full (set_td (set_run false) world_inflight)
              eq_refl) as (_ & F & _).
  exact F.
Defined.

(** ** The command entry point *)

Lemma scan_fold es a b c :
  fold_left scan_entry es (a, b, c) =
  (fold_left (fun acc e => if String.eqb (entry_path e) "uuid" then Some (entry_string e) else acc) es a,
   fold_left (fun acc e => if String.eqb (entry_path e) "url" then Some (entry_string e) else acc) es b,
   fold_left (fun acc e => if String.eqb (entry_path e) "operation" then Some (entry_string e) else acc) es c).
Proof.
  revert a b c. induction es as [|e es IH]; intros a b c; [reflexivity|].
  cbn [fold_left].
  assert (E : scan_entry (a, b, c) e =
    (if String.eqb (entry_path e) "uuid" then Some (entry_string e) else a,
     if String.eqb (entry_path e) "url" then Some (entry_string e) else b,
     if String.eqb (entry_path e) "operation" then Some (entry_string e) else c)).
  { unfold scan_entry.
    destruct (String.eqb_spec (entry_path e) "uuid") as [E1|H1]; [now rewrite E1|].
    destruct (String.eqb_spec (entry_path e) "url") as [E2|H2]; [now rewrite E2|].
    destruct (String.eqb_spec (entry_path e) "operation"); reflexivity. }
  rewrite E. apply IH.
Qed.

Lemma scan_entries_last es :
  scan_entries es = (last_value "uuid" es, last_value "url" es, last_value "operation" es).
Proof. apply scan_fold. Qed.

Lemma last_value_filter p es :
  p = "uuid" \/ p = "url" \/ p = "operation" ->
  last_value p (filter relevant_entry es) = last_value p es.
Proof.
  intros Hp. unfold last_value. generalize (@None string).
  induction es as [|e es IH]; intros acc; [reflexivity|].
  cbn [filter fold_left].
  destruct (relevant_entry e) eqn:R; cbn [fold_left]; rewrite IH; [reflexivity|].
  f_equal. unfold relevant_entry in R.
  destruct (String.eqb_spec (entry_path e) p) as [E|E]; [|reflexivity].
  rewrite E in R. destruct Hp as [ -> | [ -> | -> ] ]; discriminate.
Qed.

(** [edgehog_ota_event] reads each of [uuid], [url] and [operation] from
    the last entry with that path; entries with any other path never change
    what it does. *)
Theorem ota_event_last_entries_win (es : list object_entry) :
  scan_entries es = (last_value "uuid" es, last_value "url" es, last_value "operation" es) /\
  edgehog_ota_event (Some (filter relevant_entry es)) = edgehog_ota_event (Some es).
Proof.
  split; [apply scan_entries_last|].
  unfold edgehog_ota_event. rewrite !scan_entries_last.
  rewrite !last_value_filter by auto. reflexivity.
Qed.

(** A NULL event, a request without [uuid] or without [operation], and an
    Update without [url] are refused with OTA_INVALID_REQUEST and change
    nothing: no event is published and the run bit is left as it is. *)
Theorem ota_event_incomplete_refused (w : world) :
  edgehog_ota_event None w = (EDGEHOG_RESULT_OTA_INVALID_REQUEST, w) /\
  (forall es, last_value "uuid" es = None \/ last_value "operation" es = None ->
   edgehog_ota_event (Some es) w = (EDGEHOG_RESULT_OTA_INVALID_REQUEST, w)) /\
  (forall es u, last_value "uuid" es = Some u -> last_value "operation" es = Some "Update" ->
   last_value "url" es = None ->
   edgehog_ota_event (Some es) w = (EDGEHOG_RESULT_OTA_INVALID_REQUEST, w)).
Proof.
  split; [reflexivity|]. split.
  - intros es H. unfold edgehog_ota_event. rewrite scan_entries_last.
    destruct H as [-> | ->]; [reflexivity|].
    destruct (last_value "uuid" es); reflexivity.
  - intros es u Hu Ho Hl. unfold edgehog_ota_event. rewrite scan_entries_last, Hu, Ho, Hl.
    reflexivity.
Qed.

(** A request whose operation is neither ["Update"] nor ["Cancel"] is
    answered with one [Failure / InvalidRequest] event for its uuid and
    OTA_INVALID_REQUEST; nothing else changes. *)
Theorem ota_event_unknown_operation (es : list object_entry) (w : world) (u op : string)
  (Hu : last_value "uuid" es = Some u) (Ho : last_value "operation" es = Some op)
  (Hup : op <> "Update") (Hca : op <> "Cancel") :
  edgehog_ota_event (Some es) w =
    (EDGEHOG_RESULT_OTA_INVALID_REQUEST,
     add_act (A_Pub (mk_event u OTA_EVENT_FAILURE 0 "InvalidRequest" "")) w).
Proof.
  unfold edgehog_ota_event. rewrite scan_entries_last, Hu, Ho.
  destruct (String.eqb_spec "Update" op) as [E|_]; [congruence|].
  destruct (String.eqb_spec "Cancel" op) as [E|_]; [congruence|].
  reflexivity.
Qed.

(** An Update received while the run bit is set is answered with one
    [Failure / UpdateAlreadyInProgress] event and
    OTA_ALREADY_IN_PROGRESS: the running update's request, progress and
    persisted record are untouched. *)
Theorem ota_event_update_while_running (es : list object_entry) (w : world) (u url : string)
  (Hu : last_value "uuid" es = Some u) (Hl : last_value "url" es = Some url)
  (Ho : last_value "operation" es = Some "Update")
  (Hrun : ota_run_state (w_td w) = true) :
  edgehog_ota_event (Some es) w =
    (EDGEHOG_RESULT_OTA_ALREADY_IN_PROGRESS,
     add_act (A_Pub (mk_event u OTA_EVENT_FAILURE 0 "UpdateAlreadyInProgress" "")) w).
Proof.
  unfold edgehog_ota_event. rewrite scan_entries_last, Hu, Hl, Ho. cbn -[edgehog_ota_event_update].
  unfold edgehog_ota_event_update, bind at 1, run_bit, gets. rewrite Hrun. reflexivity.
Qed.

(** ** Update, Cancel, worker and boot *)

(** [edgehog_ota_event_update] returns OK only for an idle device, and then
    the thread data holds the request with the run bit set and every
    counter zero, the worker has been started, and nothing is persisted or
    published. *)
Theorem update_accepted_starts_worker (u url : string) (w w' : world)
  (H : edgehog_ota_event_update u url w = (EDGEHOG_RESULT_OK, w')) :
  ota_run_state (w_td w) = false /\
  w_td w' = mk_td true u url 0 0 0 0 false /\
  w_trace w' = w_trace w ++ [A_ThreadCreate] /\
  w_store w' = w_store w.
Proof.
  destruct w as [[[] ? ? ? ? ? ? ?] st tr sc sch [[] [] [] ? ? ? ? ? ? ? ? ? ? ?]];
    unfold edgehog_ota_event_update, bind, run_bit, gets, env_of, modify, log, ret,
      pub_ota_event in H; simpl in H; try discriminate;
    injection H as <-; simpl; auto.
Qed.

(** A Cancel that is refused (no update running, settings init or load
    failing, no 36-character [req_id] loaded) leaves the run bit, the
    thread data and the persisted record as they were and publishes one
    [Failure] event carrying its result's status code, after at most the
    settings init and load. A Cancel that returns OK only clears the run
    bit, with no event. *)
Theorem cancel_refused_keeps_running (u : string) (w : world) :
  let (r, w') := edgehog_ota_event_cancel u w in
  (r = EDGEHOG_RESULT_OK ->
   w_td w' = set_run false (w_td w) /\ w_store w' = w_store w /\
   w_trace w' = w_trace w ++ [A_SettingsInit; A_SettingsLoad]) /\
  (r <> EDGEHOG_RESULT_OK ->
   w_td w' = w_td w /\ w_store w' = w_store w /\
   exists pre msg,
     w_trace w' = w_trace w ++ pre ++ [A_Pub (mk_event u OTA_EVENT_FAILURE 0 (status_code r) msg)] /\
     (pre = [] \/ pre = [A_SettingsInit] \/ pre = [A_SettingsInit; A_SettingsLoad])).
Proof.
  destruct w as [td st tr sc sch [? ? ? [] [] ? ? ? ? ? ? ? ? ?]];
    unfold edgehog_ota_event_cancel, edgehog_settings_init, edgehog_settings_load_ota,
      bind, run_bit, gets, env_of, modify, log, ret, pub_ota_event; simpl;
    destruct (ota_run_state td); simpl;
    try destruct (Nat.eqb _ ASTARTE_UUID_STR_LEN); simpl.
  all: split; intros Hr; [try discriminate Hr | try (exfalso; apply Hr; reflexivity)].
  all: split; [reflexivity | split; [reflexivity|]].
  all: try (rewrite <- ?app_assoc; reflexivity).
  all: first
    [ exists []; eexists; split; [rewrite <- ?app_assoc; reflexivity | tauto]
    | exists [A_SettingsInit]; eexists; split; [rewrite <- ?app_assoc; reflexivity | tauto]
    | exists [A_SettingsInit; A_SettingsLoad]; eexists;
      split; [rewrite <- ?app_assoc; reflexivity | tauto] ].
Qed.

Lemma selfdestruct_ends w :
  let w' := snd (ota_selfdestruct w) in
  ota_run_state (w_td w') = false /\
  exists pre, w_trace w' = pre ++ [A_Delete OTA_REQUEST_ID_KEY; A_Save OTA_STATE_KEY (SV_byte OTA_STATE_IDLE)].
Proof.
  destruct w as [td st tr sc sch [? ? ? ? ? [] [] ? ? ? ? ? ? ?]];
    unfold ota_selfdestruct, edgehog_settings_delete, edgehog_settings_save,
      bind, env_of, gets, modify, log, ret; simpl;
    (split; [reflexivity | exists tr; rewrite <- !app_assoc; reflexivity]).
Qed.

Lemma after_perform_ends r w :
  let w' := snd (after_perform_ota r w) in
  (exists pre, w_trace w' = pre ++ [A_Reboot] /\ In A_RequestUpgrade pre) \/
  (ota_run_state (w_td w') = false /\
   exists pre, w_trace w' = pre ++ [A_Delete OTA_REQUEST_ID_KEY; A_Save OTA_STATE_KEY (SV_byte OTA_STATE_IDLE)]).
Proof.
  cbv zeta. remember (snd (after_perform_ota r w)) as w' eqn:E.
  unfold after_perform_ota, bind, gets, pub_ota_event, log, modify, env_of, ret in E.
  cbn -[ota_selfdestruct yield edgehog_settings_save] in E.
  destruct (result_eqb r EDGEHOG_RESULT_OK).
  - destruct (edgehog_settings_save _ _ _ _) as [sr w1]. cbn -[ota_selfdestruct yield] in E.
    destruct (e_read_header_ok (w_env w1)); cbn -[ota_selfdestruct yield] in E;
      [|subst; right; apply selfdestruct_ends].
    destruct (e_request_upgrade_ok (w_env w1)); cbn -[ota_selfdestruct yield] in E;
      [|subst; right; apply selfdestruct_ends].
    left. match type of E with context [yield ?x] => set (w2 := x) in E end.
    destruct (yield_any w2) as [added [T _]].
    destruct (yield w2) as [[] w3]. simpl in *. subst.
    eexists. split; [reflexivity|]. rewrite T, !in_app_iff. simpl. tauto.
  - destruct (edgehog_settings_save _ _ _ _) as [sr w1].
    cbn -[ota_selfdestruct] in E. subst. right. apply selfdestruct_ends.
Qed.

(** The worker ends in one of two ways: it reboots, as its last action and
    after requesting the upgrade, or it clears the run bit and its last
    actions delete the persisted [req_id] and persist state IDLE. *)
Theorem worker_reboots_or_clears (w : world) :
  let w' := snd (ota_thread_entry_point w) in
  (exists pre, w_trace w' = pre ++ [A_Reboot] /\ In A_RequestUpgrade pre) \/
  (ota_run_state (w_td w') = false /\
   exists pre, w_trace w' = pre ++ [A_Delete OTA_REQUEST_ID_KEY; A_Save OTA_STATE_KEY (SV_byte OTA_STATE_IDLE)]).
Proof.
  cbv zeta. remember (snd (ota_thread_entry_point w)) as w' eqn:E.
  unfold ota_thread_entry_point, bind, gets, pub_ota_event, log, modify, ret in E.
  cbn -[ota_selfdestruct edgehog_settings_init edgehog_settings_save perform_ota
        after_perform_ota] in E.
  destruct (edgehog_settings_init _) as [ri w1].
  destruct (negb (result_eqb ri EDGEHOG_RESULT_OK)).
  - subst. right. apply selfdestruct_ends.
  - destruct (edgehog_settings_save _ _ _ _) as [? w2].
    destruct (perform_ota w2) as [r w3]. subst. apply after_perform_ends.
Qed.

(** The boot-time reconciler zeroes the thread data, so no update is
    running after it; and the only way it publishes a Success event is
    through the full chain of checks: the settings load succeeds, the
    persisted [req_id] has 36 characters, the persisted state is REBOOT,
    the swap type is NONE, the image was not confirmed yet and its
    confirmation succeeds. The event carries the persisted [req_id]. *)
Theorem reconcile_success_only_if (w : world) :
  let w' := snd (edgehog_ota_init w) in
  let s := ota_settings_of (w_store w) in
  w_td w' = td_zero /\
  (forall e, In (A_Pub e) (w_trace w') -> ~ In (A_Pub e) (w_trace w) ->
   status e = OTA_EVENT_SUCCESS ->
   e_settings_load_ok (w_env w) = true /\
   String.length (uuid s) = ASTARTE_UUID_STR_LEN /\
   ota_state s = OTA_STATE_REBOOT /\
   e_swap_type (w_env w) = BOOT_SWAP_TYPE_NONE /\
   e_img_confirmed (w_env w) = false /\
   e_confirm_ok (w_env w) = true /\
   e = mk_event (uuid s) OTA_EVENT_SUCCESS 0 "" "").
Proof.
  destruct w as [td [st rid] tr sc sch e]; destruct e; simpl.
  unfold edgehog_ota_init, edgehog_settings_load_ota, bind, ret, gets, modify, log,
    env_of, pub_ota_event, edgehog_settings_delete, edgehog_settings_save; simpl.
  destruct e_settings_load_ok0, e_settings_delete_ok0, e_settings_save_ok0, e_swap_type0,
    e_img_confirmed0, e_confirm_ok0; cbn.
  all: try (remember (match rid with Some u => u | None => "" end) as u;
            remember (match st with Some b => b | None => 0%Z end) as stv;
            destruct (Nat.eqb (String.length u) ASTARTE_UUID_STR_LEN) eqn:Hlen,
              (Z.eqb stv OTA_STATE_REBOOT) eqn:Hst; cbn).
  all: split; [reflexivity|].
  all: intros ev Hin Hn Hs; rewrite ?in_app_iff in Hin; simpl in Hin.
  all: repeat match type of Hin with _ \/ _ => destruct Hin as [Hin|Hin] end;
    try contradiction; try discriminate.
  all: injection Hin as <-; simpl in Hs; try discriminate.
  all: repeat split; try reflexivity.
  all: first [ apply Nat.eqb_eq; assumption | apply Z.eqb_eq; assumption ].
Qed.

Lemma name_next_plain k :
  plain_key k = true -> settings_name_next k = (String.length k, None).
Proof.
  unfold plain_key. induction k as [|a k IH]; simpl; [reflexivity|].
  intros H. apply andb_prop in H as [Ha Hk]. apply andb_prop in Ha as [H1 H2].
  apply negb_true_iff in H1, H2. rewrite H1, H2, (IH Hk). reflexivity.
Qed.

Lemma name_next_sep k1 k2 :
  plain_key k1 = true ->
  settings_name_next (k1 ++ String "/" k2) = (String.length k1, Some k2).
Proof.
  unfold plain_key. induction k1 as [|a k IH]; simpl; [reflexivity|].
  intros H. apply andb_prop in H as [Ha Hk]. apply andb_prop in Ha as [H1 H2].
  apply negb_true_iff in H1, H2. rewrite H1, H2, (IH Hk). reflexivity.
Qed.

Lemma strncmp_prefix k s :
  strncmp_eq k s (String.length k) = String.prefix k s.
Proof.
  revert s. induction k as [|a k IH]; intros [|b s]; simpl; try reflexivity.
  destruct (ascii_dec a b) as [<-|Hne].
  - rewrite Ascii.eqb_refl. apply IH.
  - apply Ascii.eqb_neq in Hne. rewrite Hne. reflexivity.
Qed.

Lemma forallb_no_nul_firstn n l :
  forallb (fun c => negb (Ascii.eqb c NUL)) l = true ->
  forallb (fun c => negb (Ascii.eqb c NUL)) (firstn n l) = true.
Proof.
  revert l. induction n as [|n IH]; intros [|a l]; simpl; auto.
  intros H. apply andb_prop in H as [H1 H2]. rewrite H1, (IH l H2). reflexivity.
Qed.

Lemma c_strlen_app_nul l :
  forallb (fun c => negb (Ascii.eqb c NUL)) l = true ->
  c_strlen (l ++ [NUL]) = Some (List.length l).
Proof.
  induction l as [|a l IH]; simpl; [reflexivity|].
  intros H. apply andb_prop in H as [H1 H2]. apply negb_true_iff in H1.
  rewrite H1, (IH H2). reflexivity.
Qed.

Lemma c_string_app_nul l :
  forallb (fun c => negb (Ascii.eqb c NUL)) l = true ->
  c_string (l ++ [NUL]) = string_of_list_ascii l.
Proof.
  induction l as [|a l IH]; simpl; [reflexivity|].
  intros H. apply andb_prop in H as [H1 H2]. apply negb_true_iff in H1.
  rewrite H1, (IH H2). reflexivity.
Qed.

Lemma c_strlen_no_nul l :
  forallb (fun c => negb (Ascii.eqb c NUL)) l = true -> c_strlen l = None.
Proof.
  induction l as [|a l IH]; simpl; [reflexivity|].
  intros H. apply andb_prop in H as [H1 H2]. apply negb_true_iff in H1.
  rewrite H1, (IH H2). reflexivity.
Qed.

Lemma length_list_ascii s : List.length (list_ascii_of_string s) = String.length s.
Proof. induction s; simpl; auto. Qed.

(** The settings loader matches a key of one component against
    ["state"] and ["req_id"] with [strncmp] over the key's own length: the
    key is read as the state whenever it is a prefix of ["state"] (the
    empty key included), otherwise as the request id whenever it is a
    prefix of ["req_id"], and any other key is refused with [-ENOENT],
    the buffer left untouched. *)
Theorem loader_key_prefix_match k rd dest (Hk : plain_key k = true) :
  ota_settings_loader k rd dest =
    if String.prefix k OTA_STATE_KEY then ota_settings_loader OTA_STATE_KEY rd dest
    else if String.prefix k OTA_REQUEST_ID_KEY
    then ota_settings_loader OTA_REQUEST_ID_KEY rd dest
    else ((- ENOENT)%Z, dest).
Proof.
  unfold ota_settings_loader at 1. rewrite (name_next_plain k Hk), !strncmp_prefix.
  destruct (String.prefix k OTA_STATE_KEY); [reflexivity|].
  destruct (String.prefix k OTA_REQUEST_ID_KEY); reflexivity.
Qed.

(** A key with a further component after a separator ['/'] is refused by
    the loader with [-ENOENT], without a read and with the buffer untouched. *)
Theorem loader_subkey_refused k1 k2 rd dest (Hk : plain_key k1 = true) :
  ota_settings_loader (k1 ++ String "/" k2) rd dest = ((- ENOENT)%Z, dest).
Proof.
  unfold ota_settings_loader. rewrite (name_next_sep k1 k2 Hk). reflexivity.
Qed.

(** A read failure of the backend on a key the loader accepts is returned
    as it is when negative, and the buffer is left untouched. *)
Theorem loader_read_error_propagated k rc dest
    (Hk : plain_key k = true)
    (Hacc : String.prefix k OTA_STATE_KEY || String.prefix k OTA_REQUEST_ID_KEY = true)
    (Hrc : (rc < 0)%Z) :
  ota_settings_loader k (RD_err rc) dest = (rc, dest).
Proof.
  rewrite (loader_key_prefix_match k _ dest Hk).
  apply Z.ltb_lt in Hrc.
  destruct (String.prefix k OTA_STATE_KEY), (String.prefix k OTA_REQUEST_ID_KEY);
    simpl in Hacc; try discriminate; cbn; rewrite Hrc; reflexivity.
Qed.

(** The [req_id] round trip of a 36-character uuid: [perform_ota] saves
    its 36 characters and the terminating NUL, and loading them into a
    zeroed [ota_settings_t] gives back a C string of length 36, equal to
    the uuid, so the reconciler's [strlen] check passes. *)
Theorem req_id_round_trip u
    (Hlen : String.length u = ASTARTE_UUID_STR_LEN) (Hnul : no_nul u = true) :
  exists b, req_id_bytes u = Some b /\
    let (rc, buf) := ota_settings_loader OTA_REQUEST_ID_KEY (RD_value b) ota_buf_zero in
    rc = 0%Z /\ c_strlen (uuid_buf buf) = Some ASTARTE_UUID_STR_LEN /\
    c_string (uuid_buf buf) = u /\ ota_state_byte buf = ota_state_byte ota_buf_zero.
Proof.
  unfold no_nul in Hnul.
  assert (Hl : List.length (list_ascii_of_string u) = ASTARTE_UUID_STR_LEN)
    by (rewrite length_list_ascii; exact Hlen).
  exists (list_ascii_of_string u ++ [NUL]). split.
  - unfold req_id_bytes. rewrite length_app, Hl. cbn -[firstn].
    rewrite firstn_all2; [reflexivity|]. rewrite length_app, Hl. reflexivity.
  - cbn -[copy_into]. unfold copy_into.
    rewrite firstn_all2 by (rewrite length_app, Hl; reflexivity).
    rewrite length_app, Hl. cbn [List.length plus ASTARTE_UUID_STR_LEN].
    rewrite skipn_all2 by (cbn; lia). rewrite app_nil_r.
    split; [reflexivity|]. split; [|split; [|reflexivity]].
    + rewrite (c_strlen_app_nul _ Hnul), Hl. reflexivity.
    + rewrite (c_string_app_nul _ Hnul). apply string_of_list_ascii_of_string.
Qed.

(** The [req_id] save of [perform_ota] copies [ASTARTE_UUID_STR_LEN + 1]
    bytes whatever the uuid's length: a uuid shorter than 36 characters
    leaves fewer bytes than that in its heap copy, so the copy is read
    past its end; a uuid longer than 36 characters is saved without its
    NUL, and loading it back leaves the [uuid] array unterminated. *)
Theorem req_id_save_length_unchecked u (Hnul : no_nul u = true) :
  (req_id_bytes u = None <-> String.length u < ASTARTE_UUID_STR_LEN) /\
  (ASTARTE_UUID_STR_LEN < String.length u ->
   exists b, req_id_bytes u = Some b /\
     c_strlen (uuid_buf (snd (ota_settings_loader OTA_REQUEST_ID_KEY (RD_value b)
                                ota_buf_zero))) = None).
Proof.
  unfold no_nul in Hnul. unfold req_id_bytes.
  rewrite length_app, length_list_ascii. simpl List.length. split.
  - destruct (Nat.leb_spec (ASTARTE_UUID_STR_LEN + 1) (String.length u + 1)).
    + split; [discriminate|]. intros. lia.
    + split; [intros; lia|reflexivity].
  - intros Hgt. destruct (Nat.leb_spec (ASTARTE_UUID_STR_LEN + 1) (String.length u + 1));
      [|lia].
    eexists. split; [reflexivity|].
    rewrite firstn_app, length_list_ascii.
    replace (ASTARTE_UUID_STR_LEN + 1 - String.length u) with 0 by lia.
    rewrite app_nil_r.
    remember (firstn (ASTARTE_UUID_STR_LEN + 1) (list_ascii_of_string u)) as b eqn:Eb.
    assert (Hb : List.length b = ASTARTE_UUID_STR_LEN + 1).
    { subst b. rewrite length_firstn, length_list_ascii. lia. }
    cbn -[copy_into]. unfold copy_into.
    rewrite firstn_all2 by (rewrite Hb; reflexivity). rewrite Hb.
    rewrite skipn_all2 by (cbn; lia). rewrite app_nil_r.
    subst b. apply c_strlen_no_nul, forallb_no_nul_firstn, Hnul.
Qed.

(** ** Witnesses of the properties above *)

Lemma ota_event_unknown_operation_witness :
  edgehog_ota_event (Some [mk_entry "uuid" uuid_a; mk_entry "operation" "Reboot"])
    (world_idle env_all_ok) =
    (EDGEHOG_RESULT_OTA_INVALID_REQUEST,
     add_act (A_Pub (mk_event uuid_a OTA_EVENT_FAILURE 0 "InvalidRequest" ""))
       (world_idle env_all_ok)).
Proof.
  apply (ota_event_unknown_operation _ _ uuid_a "Reboot"); [reflexivity | reflexivity | discriminate | discriminate].
Defined.

Lemma ota_event_update_while_running_witness :
  edgehog_ota_event
    (Some [mk_entry "uuid" uuid_b; mk_entry "url" url_a; mk_entry "operation" "Update"])
    world_inflight =
    (EDGEHOG_RESULT_OTA_ALREADY_IN_PROGRESS,
     add_act (A_Pub (mk_event uuid_b OTA_EVENT_FAILURE 0 "UpdateAlreadyInProgress" ""))
       world_inflight).
Proof.
  apply (ota_event_update_while_running _ _ uuid_b url_a); reflexivity.
Defined.

Lemma update_accepted_starts_worker_witness :
  let w' := snd (edgehog_ota_event_update uuid_a url_a (world_idle env_all_ok)) in
  w_td w' = mk_td true uuid_a url_a 0 0 0 0 false /\ w_trace w' = [A_ThreadCreate].
Proof.
  destruct (update_accepted_starts_worker uuid_a url_a (world_idle env_all_ok)
              (snd (edgehog_ota_event_update uuid_a url_a (world_idle env_all_ok)))
              eq_refl) as (_ & T & L & _).
  split; [exact T | exact L].
Defined.

Lemma loader_key_prefix_match_witness :
  ota_settings_loader "" (RD_value ["003"%char]) ota_buf_zero =
    ota_settings_loader OTA_STATE_KEY (RD_value ["003"%char]) ota_buf_zero.
Proof.
  rewrite (loader_key_prefix_match "" (RD_value ["003"%char]) ota_buf_zero eq_refl).
  reflexivity.
Defined.

Lemma loader_subkey_refused_witness :
  ota_settings_loader ("state" ++ String "/" "x") (RD_value ["003"%char]) ota_buf_zero =
    ((- ENOENT)%Z, ota_buf_zero).
Proof.
  exact (loader_subkey_refused "state" "x" (RD_value ["003"%char]) ota_buf_zero eq_refl).
Defined.

Lemma loader_read_error_propagated_witness :
  ota_settings_loader "req" (RD_err (-5)) ota_buf_zero = ((-5)%Z, ota_buf_zero).
Proof.
  apply loader_read_error_propagated; reflexivity.
Defined.

Lemma req_id_round_trip_witness :
  exists b, req_id_bytes uuid_a = Some b /\
    let (rc, buf) := ota_settings_loader OTA_REQUEST_ID_KEY (RD_value b) ota_buf_zero in
    rc = 0%Z /\ c_strlen (uuid_buf buf) = Some ASTARTE_UUID_STR_LEN /\
    c_string (uuid_buf buf) = uuid_a /\ ota_state_byte buf = ota_state_byte ota_buf_zero.
Proof.
  exact (req_id_round_trip uuid_a eq_refl eq_refl).
Defined.

Lemma req_id_save_length_unchecked_witness :
  req_id_bytes "1111" = None /\
  exists b, req_id_bytes (uuid_a ++ "1") = Some b /\
    c_strlen (uuid_buf (snd (ota_settings_loader OTA_REQUEST_ID_KEY (RD_value b)
                               ota_buf_zero))) = None.
Proof.
  split.
  - apply (proj1 (req_id_save_length_unchecked "1111" eq_refl)). unfold ASTARTE_UUID_STR_LEN, uuid_a. simpl. lia.
  - apply (proj2 (req_id_save_length_unchecked (uuid_a ++ "1") eq_refl)). unfold ASTARTE_UUID_STR_LEN, uuid_a. simpl. lia.
Defined.

(** [pub_ota_event] sends an empty [statusCode] exactly for
    EDGEHOG_RESULT_OK: every other result, known or not, is sent with a
    non-empty code. *)
Theorem status_code_empty_iff_ok (error : edgehog_result_t) :
  status_code error = "" <-> error = EDGEHOG_RESULT_OK.
Proof.
  split; [|intros ->; reflexivity].
  destruct error; simpl; intros H; first [reflexivity | discriminate].
Qed.
